(** * Hermes: the e-mail rendering pipeline of [pkg/mails/hermes.go]

    A shallow embedding of the engine facade ([GenerateHTML],
    [GeneratePlainText], [generateTemplate]), of the two default mergers
    ([SetDefaultHermesValues], [SetDefaultEmailValues]) and of
    [Markdown.ToHTML].

    The third-party packages the file imports (mergo, html/template, sprig,
    premailer, html2text, blackfriday) are not part of the repository.
    mergo's merge is modelled by kind, the way its reflective walk dispatches;
    the other packages are kept abstract behind the class [Externals]. *)

From Stdlib Require Import Strings.String Strings.Ascii Strings.Byte.
From stdpp Require Import base option list strings gmap.

Local Open Scope string_scope.

(** ** Go values *)

(** Go's [error] interface: a message; [None] stands for Go's [nil]. *)
Definition error : Type := string.

(** A Go slice is either [nil] (its zero value) or a header over a sequence
    of elements.  Both the [nil] slice and [[]T{}] have length 0. *)
Inductive slice (A : Type) : Type :=
| nil_slice
| mk_slice (elems : list A).
Arguments nil_slice {A}.
Arguments mk_slice {A} elems.

Definition elems {A} (s : slice A) : list A :=
  match s with
  | nil_slice => []
  | mk_slice l => l
  end.

Definition len {A} (s : slice A) : nat := length (elems s).

(** A Go [map[string]string] is a reference: [None] is the [nil] map, and
    [Some l] points to a map object of the heap.  Copying a struct copies
    the reference, not the object. *)
Definition loc : Type := positive.
Definition gomap : Type := option loc.
Definition heap : Type := gmap loc (gmap string string).

(** ** The data model of hermes.go *)

(** A field of a struct type as reflection lists it: its name, and whether
    mergo counts it as mergeable (an exported field, or an embedded struct
    that has one). *)
Record field : Type := mkField {
  field_name : string;
  field_exported : bool
}.

(** A value implementing the [Theme] interface: the results of its three
    methods, and the dynamic type behind the interface as far as the
    reflective walk of mergo tells it apart.  A theme type is a struct type
    [T]; the interface holds either a [T] or, as for the built-in theme, a
    [*T] that is not [nil].  [Theme_fields] lists the fields of [T]. *)
Record ThemeImpl : Type := mkThemeImpl {
  Name : string;
  HTMLTemplate : string;
  PlainTextTemplate : string;
  Theme_pointer : bool;
  Theme_fields : list field
}.

(** The interface value itself: [None] is the [nil] interface. *)
Definition Theme : Type := option ThemeImpl.

Definition TextDirection : Type := string.

Record Branding : Type := mkBranding {
  Brand_Name : string;
  Link : string;
  Logo : string;
  Copyright : string;
  TroubleText : string
}.

Record Hermes : Type := mkHermes {
  Hermes_Theme : Theme;
  Brand : Branding;
  Hermes_TextDirection : TextDirection;
  DisableCSSInlining : bool
}.

(** [type Markdown template.HTML], itself a string type. *)
Definition HTML : Type := string.
Definition Markdown : Type := string.

Record Entry : Type := mkEntry {
  Key : string;
  Value : string
}.

Record Columns : Type := mkColumns {
  CustomWidth : gomap;
  CustomAlignment : gomap
}.

Record Table : Type := mkTable {
  Data : slice (slice Entry);
  Table_Columns : Columns
}.

Record Button : Type := mkButton {
  Color : string;
  TextColor : string;
  Text : string;
  Button_Link : string
}.

Record Action : Type := mkAction {
  Instructions : string;
  Action_Button : Button;
  InviteCode : string
}.

Record Body : Type := mkBody {
  Body_Name : string;
  Intros : slice string;
  Dictionary : slice Entry;
  Body_Table : Table;
  Actions : slice Action;
  Outros : slice string;
  Greeting : string;
  Signature : string;
  Title : string;
  FreeMarkdown : Markdown
}.

Record Email : Type := mkEmail {
  Email_Body : Body
}.

(** The root object handed to the templating engine. *)
Record Template : Type := mkTemplate {
  Template_Hermes : Hermes;
  Template_Email : Email
}.

(** ** Effects

    A computation runs in a world made of the heap of map objects and of
    the log of the calls made into the third-party packages.  It either
    returns a value or stops in a run-time panic ([None]), whose value the
    world then holds. *)

Inductive call : Type :=
| call_mergo_Merge_Hermes
| call_mergo_Merge_Email
| call_template_Parse (tplt : string)
| call_template_Execute
| call_premailer_NewPremailerFromString (doc : string)
| call_premailer_Transform
| call_html2text_FromString (input : string).

Record world : Type := mkWorld {
  world_heap : heap;
  world_log : list call;
  world_panic : option error
}.

Definition M (A : Type) : Type := world -> option A * world.

Definition ret {A} (a : A) : M A := fun w => (Some a, w).

Definition bind {A B} (m : M A) (f : A -> M B) : M B :=
  fun w =>
    match m w with
    | (Some a, w') => f a w'
    | (None, w') => (None, w')
    end.

Notation "'let!' x ':=' m 'in' k" := (bind m (fun x => k))
  (at level 10, x name, m at level 100, k at level 200, only parsing).
Notation "'let!' ' pat ':=' m 'in' k" :=
  (bind m (fun x => match x with pat => k end))
  (at level 10, pat pattern, m at level 100, k at level 200, only parsing).

Definition panic {A} (v : error) : M A :=
  fun w =>
    (None, {| world_heap := world_heap w; world_log := world_log w;
              world_panic := Some v |}).

Definition emit (c : call) : M unit :=
  fun w =>
    (Some tt, {| world_heap := world_heap w; world_log := (world_log w ++ [c])%list;
                 world_panic := world_panic w |}).

Definition get_heap : M heap := fun w => (Some (world_heap w), w).

(** Reading through a reference; a reference into nothing reads as empty. *)
Definition read_map (l : loc) : M (gmap string string) :=
  fun w => (Some (default ∅ (world_heap w !! l)), w).

Definition write_map (l : loc) (m : gmap string string) : M unit :=
  fun w =>
    (Some tt, {| world_heap := <[l := m]> (world_heap w); world_log := world_log w;
                 world_panic := world_panic w |}).

Definition make_map (m : gmap string string) : M loc :=
  fun w =>
    let l := fresh (dom (world_heap w)) in
    (Some l, {| world_heap := <[l := m]> (world_heap w); world_log := world_log w;
                world_panic := world_panic w |}).

(** ** mergo.Merge, without options

    [mergo.Merge(dst, src)] walks both values by reflection.  A struct is
    merged field by field; a string, boolean or slice is replaced by the
    source when the destination is empty and the source is not, and is left
    alone otherwise.  "Empty" is mergo's [isEmptyValue]: length 0 for
    strings and slices, [false] for booleans.  One instance of [Mergeable]
    per kind plays the part of the reflective dispatch; the walk runs in [M]
    because storing a key in a map writes to the map object. *)

Class Mergeable (A : Type) : Type := deepMerge : A -> A -> M A.

Definition isEmptyString (s : string) : bool := Nat.eqb (String.length s) 0.
Definition isEmptySlice {A} (s : slice A) : bool := Nat.eqb (len s) 0.
Definition isEmptyBool (b : bool) : bool := negb b.
Definition isNilTheme (t : Theme) : bool :=
  match t with
  | None => true
  | Some _ => false
  end.

(** The default case of the walk: set when the destination is empty and the
    source is not. *)
Definition mustSet (dst_empty src_empty : bool) : bool :=
  dst_empty && negb src_empty.

Global Instance merge_string : Mergeable string :=
  fun dst src =>
    ret (if mustSet (isEmptyString dst) (isEmptyString src) then src else dst).

Global Instance merge_bool : Mergeable bool :=
  fun dst src =>
    ret (if mustSet (isEmptyBool dst) (isEmptyBool src) then src else dst).

(** Slices are never merged element-wise: the header is copied or not. *)
Global Instance merge_slice {A} : Mergeable (slice A) :=
  fun dst src =>
    ret (if mustSet (isEmptySlice dst) (isEmptySlice src) then src else dst).

(** Maps are merged per key, in place: a key of the source is stored in the
    destination's map object when that has no entry for it or an empty one.
    A [nil] source has no keys; a [nil] destination is first given a fresh
    map object when the source is not [nil]. *)
Definition merge_entry (d s : option string) : option string :=
  match d, s with
  | Some x, Some y => if isEmptyString x then Some y else Some x
  | Some x, None => Some x
  | None, s => s
  end.

Global Instance merge_gomap : Mergeable gomap :=
  fun dst src =>
    match src with
    | None => ret dst
    | Some ls =>
        let! s := read_map ls in
        match dst with
        | Some ld =>
            let! d := read_map ld in
            let! _ := write_map ld (merge merge_entry d s) in
            ret (Some ld)
        | None =>
            let! l := make_map s in
            ret (Some l)
        end
    end.

(** mergo's [hasMergeableFields] on the struct behind a theme. *)
Definition hasMergeableFields (t : ThemeImpl) : bool :=
  existsb field_exported (Theme_fields t).

(** The value [reflect.Value.Field] panics with. *)
Definition field_index_out_of_range : error :=
  "reflect: Field index out of range".

(** The walk over a struct that has mergeable fields:
    [for i := 0; i < dst.NumField(); i++ { deepMerge(dst.Field(i),
    src.Field(i)) }].  [src.Field(i)] panics when the source struct has no
    field [i].  The model holds no field values, so where both structs have a
    field [i] the pair is passed over; the one source the engine merges, the
    built-in theme, has no field, and no such pair exists then. *)
Fixpoint merge_fields (dst src : list field) : M unit :=
  match dst with
  | [] => ret tt
  | _ :: dst' =>
      match src with
      | [] => panic field_index_out_of_range
      | _ :: src' => merge_fields dst' src'
      end
  end.

(** An interface field.  A [nil] source is skipped and a [nil] destination
    takes the source.  Two non-[nil] interfaces are followed only when their
    dynamic values are of one kind (both structs, or both pointers, which are
    followed in turn to the structs they point to); the destination struct
    is then walked when it has a mergeable field and left alone otherwise. *)
Global Instance merge_Theme : Mergeable Theme :=
  fun dst src =>
    match src with
    | None => ret dst
    | Some s =>
        match dst with
        | None => ret src
        | Some d =>
            if Bool.eqb (Theme_pointer d) (Theme_pointer s)
            then if hasMergeableFields d
                 then let! _ := merge_fields (Theme_fields d) (Theme_fields s) in
                      ret dst
                 else ret dst
            else ret dst
        end
    end.

Global Instance merge_Branding : Mergeable Branding :=
  fun dst src =>
    let! name := deepMerge (Brand_Name dst) (Brand_Name src) in
    let! link := deepMerge (Link dst) (Link src) in
    let! logo := deepMerge (Logo dst) (Logo src) in
    let! copyright := deepMerge (Copyright dst) (Copyright src) in
    let! troubleText := deepMerge (TroubleText dst) (TroubleText src) in
    ret {| Brand_Name := name; Link := link; Logo := logo;
           Copyright := copyright; TroubleText := troubleText |}.

Global Instance merge_Hermes : Mergeable Hermes :=
  fun dst src =>
    let! theme := deepMerge (Hermes_Theme dst) (Hermes_Theme src) in
    let! brand := deepMerge (Brand dst) (Brand src) in
    let! dir := deepMerge (Hermes_TextDirection dst) (Hermes_TextDirection src) in
    let! disable := deepMerge (DisableCSSInlining dst) (DisableCSSInlining src) in
    ret {| Hermes_Theme := theme; Brand := brand;
           Hermes_TextDirection := dir; DisableCSSInlining := disable |}.

Global Instance merge_Columns : Mergeable Columns :=
  fun dst src =>
    let! width := deepMerge (CustomWidth dst) (CustomWidth src) in
    let! alignment := deepMerge (CustomAlignment dst) (CustomAlignment src) in
    ret {| CustomWidth := width; CustomAlignment := alignment |}.

Global Instance merge_Table : Mergeable Table :=
  fun dst src =>
    let! data := deepMerge (Data dst) (Data src) in
    let! columns := deepMerge (Table_Columns dst) (Table_Columns src) in
    ret {| Data := data; Table_Columns := columns |}.

Global Instance merge_Body : Mergeable Body :=
  fun dst src =>
    let! name := deepMerge (Body_Name dst) (Body_Name src) in
    let! intros := deepMerge (Intros dst) (Intros src) in
    let! dictionary := deepMerge (Dictionary dst) (Dictionary src) in
    let! table := deepMerge (Body_Table dst) (Body_Table src) in
    let! actions := deepMerge (Actions dst) (Actions src) in
    let! outros := deepMerge (Outros dst) (Outros src) in
    let! greeting := deepMerge (Greeting dst) (Greeting src) in
    let! signature := deepMerge (Signature dst) (Signature src) in
    let! title := deepMerge (Title dst) (Title src) in
    let! freeMarkdown := deepMerge (FreeMarkdown dst) (FreeMarkdown src) in
    ret {| Body_Name := name; Intros := intros; Dictionary := dictionary;
           Body_Table := table; Actions := actions; Outros := outros;
           Greeting := greeting; Signature := signature; Title := title;
           FreeMarkdown := freeMarkdown |}.

Global Instance merge_Email : Mergeable Email :=
  fun dst src =>
    let! body := deepMerge (Email_Body dst) (Email_Body src) in
    ret {| Email_Body := body |}.

(** [mergo.Merge(&dst, src)] on two values of one struct type: the value
    of [dst] after the call and the returned error, which is [nil] for every
    such pair. *)
Definition mergo_Merge {A} `{Mergeable A} (dst src : A) : M (A * option error) :=
  let! dst' := deepMerge dst src in
  ret (dst', None).

(** ** Zero values and the two default tables *)

Definition zeroColumns : Columns :=
  {| CustomWidth := None; CustomAlignment := None |}.
Definition zeroTable : Table :=
  {| Data := nil_slice; Table_Columns := zeroColumns |}.
Definition zeroBody : Body :=
  {| Body_Name := ""; Intros := nil_slice; Dictionary := nil_slice;
     Body_Table := zeroTable; Actions := nil_slice; Outros := nil_slice;
     Greeting := ""; Signature := ""; Title := ""; FreeMarkdown := "" |}.
Definition zeroEmail : Email := {| Email_Body := zeroBody |}.
Definition zeroBranding : Branding :=
  {| Brand_Name := ""; Link := ""; Logo := ""; Copyright := ""; TroubleText := "" |}.
Definition zeroHermes : Hermes :=
  {| Hermes_Theme := None; Brand := zeroBranding;
     Hermes_TextDirection := ""; DisableCSSInlining := false |}.

(** The composite literal of [SetDefaultEmailValues]; the fields it does not
    name hold their zero value. *)
Definition defaultEmail : Email :=
  {| Email_Body :=
       {| Body_Name := "";
          Intros := mk_slice [];
          Dictionary := mk_slice [];
          Body_Table := zeroTable;
          Actions := nil_slice;
          Outros := mk_slice [];
          Greeting := "Hi";
          Signature := "Yours truly";
          Title := "";
          FreeMarkdown := "" |} |}.

Definition defaultCopyright : string :=
  "Copyright © 2024 Hermes. All rights reserved.".
Definition defaultTroubleText : string :=
  "If you’re having trouble with the button '{ACTION}', copy and paste the URL below into your web browser.".

(** ** html/template: names and helper maps

    [template.New("hermes")] followed by three [Funcs] calls: each call adds
    the entries of its map to the helpers of the template under
    construction, a later entry shadowing an earlier one of the same name. *)

Inductive helper : Type :=
| sprig_helper (name : string)
| string_as_URL
| string_as_HTML.

Definition FuncMap : Type := list (string * helper).

Record TemplateDef : Type := mkTemplateDef {
  def_name : string;
  def_funcs : FuncMap
}.

Definition template_New (name : string) : TemplateDef :=
  {| def_name := name; def_funcs := [] |}.

Definition Funcs (m : FuncMap) (t : TemplateDef) : TemplateDef :=
  {| def_name := def_name t; def_funcs := (m ++ def_funcs t)%list |}.

(** [var templateFuncs]: the helper [url] turns a string into a
    [template.URL]. *)
Definition templateFuncs : FuncMap := [("url", string_as_URL)].

(** [html2text.Options], of which the engine sets one field. *)
Record html2text_Options : Type := mkOptions {
  PrettyTables : bool
}.

(** ** The capabilities the engine does not implement

    What the third-party packages compute is left open: each function
    returns what its Go counterpart returns, a value paired with an error.
    [themes_Default] stands for [new(themes.Default)], the built-in theme of
    package [pkg/themes]: a pointer to a struct without fields. *)
Class Externals : Type := mkExternals {
  themes_Default : ThemeImpl;
  themes_Default_pointer : Theme_pointer themes_Default = true;
  themes_Default_fields : Theme_fields themes_Default = [];
  sprig_FuncMap : FuncMap;
  parsed : Type;
  template_Parse : TemplateDef -> string -> parsed * option error;
  template_Execute : parsed -> Template -> heap -> string * option error;
  premailer : Type;
  premailer_NewPremailerFromString : string -> premailer * option error;
  premailer_Transform : premailer -> string * option error;
  html2text_FromString : string -> html2text_Options -> string * option error
}.

Section Engine.

Context `{X : Externals}.

(** The calls, each recorded in the log. *)
Definition Parse (t : TemplateDef) (tplt : string) : M (parsed * option error) :=
  let! _ := emit (call_template_Parse tplt) in
  ret (template_Parse t tplt).

Definition Execute (t : parsed) (data : Template) : M (string * option error) :=
  let! _ := emit call_template_Execute in
  let! σ := get_heap in
  ret (template_Execute t data σ).

Definition NewPremailerFromString (doc : string) : M (premailer * option error) :=
  let! _ := emit (call_premailer_NewPremailerFromString doc) in
  ret (premailer_NewPremailerFromString doc).

Definition Transform (prem : premailer) : M (string * option error) :=
  let! _ := emit call_premailer_Transform in
  ret (premailer_Transform prem).

Definition FromString (input : string) (o : html2text_Options) : M (string * option error) :=
  let! _ := emit (call_html2text_FromString input) in
  ret (html2text_FromString input o).

(** ** The default mergers *)

(** [func (e *Email) SetDefaultEmailValues() error]: the value of [*e]
    after the call, and the error. *)
Definition SetDefaultEmailValues (e : Email) : M (Email * option error) :=
  let! _ := emit call_mergo_Merge_Email in
  mergo_Merge e defaultEmail.

Definition defaultHermes : Hermes :=
  {| Hermes_Theme := Some themes_Default;
     Brand := {| Brand_Name := "Hermes";
                 Link := "";
                 Logo := "";
                 Copyright := defaultCopyright;
                 TroubleText := defaultTroubleText |};
     Hermes_TextDirection := "ltr";
     DisableCSSInlining := false |}.

(** [func (h *Hermes) SetDefaultHermesValues() error]: the value of [*h]
    after the call, and the error. *)
Definition SetDefaultHermesValues (h : Hermes) : M (Hermes * option error) :=
  let! _ := emit call_mergo_Merge_Hermes in
  let! '(h, err) := mergo_Merge h defaultHermes in
  match err with
  | Some e => ret (h, Some e)
  | None => ret (h, None)
  end.

(** ** The engine facade *)

(** [template.New("hermes").Funcs(sprig.FuncMap()).Funcs(templateFuncs).
    Funcs(template.FuncMap{"safe": ...})], the template [Parse] is called
    on. *)
Definition hermesTemplate : TemplateDef :=
  Funcs [("safe", string_as_HTML)]
    (Funcs templateFuncs
       (Funcs sprig_FuncMap (template_New "hermes"))).

(** [func (h *Hermes) generateTemplate(email Email, tplt string)].  The
    receiver is only read; [email] is the function's own copy. *)
Definition generateTemplate (h : Hermes) (email : Email) (tplt : string)
  : M (string * option error) :=
  let! '(email, err) := SetDefaultEmailValues email in
  match err with
  | Some e => ret ("", Some e)
  | None =>
      let! '(t, err) := Parse hermesTemplate tplt in
      match err with
      | Some e => ret ("", Some e)
      | None =>
          let! '(b, err) := Execute t {| Template_Hermes := h; Template_Email := email |} in
          match err with
          | Some e => ret ("", Some e)
          | None =>
              let res := b in
              if DisableCSSInlining h then ret (res, None)
              else
                let! '(prem, err) := NewPremailerFromString res in
                match err with
                | Some e => ret ("", Some e)
                | None =>
                    let! '(html, err) := Transform prem in
                    match err with
                    | Some e => ret ("", Some e)
                    | None => ret (html, None)
                    end
                end
          end
      end
  end.

(** Calling a method on the [Theme] interface value: a [nil] interface
    panics. *)
Definition nil_pointer_dereference : error :=
  "runtime error: invalid memory address or nil pointer dereference".

Definition Theme_method (f : ThemeImpl -> string) (t : Theme) : M string :=
  match t with
  | Some impl => ret (f impl)
  | None => panic nil_pointer_dereference
  end.

(** [func (h *Hermes) GenerateHTML(email Email) (string, error)]: the value
    of [*h] after the call, and the two results. *)
Definition GenerateHTML (h : Hermes) (email : Email)
  : M (Hermes * (string * option error)) :=
  let! '(h, err) := SetDefaultHermesValues h in
  match err with
  | Some e => ret (h, ("", Some e))
  | None =>
      let! tplt := Theme_method HTMLTemplate (Hermes_Theme h) in
      let! r := generateTemplate h email tplt in
      ret (h, r)
  end.

(** [func (h *Hermes) GeneratePlainText(email Email) (string, error)]. *)
Definition GeneratePlainText (h : Hermes) (email : Email)
  : M (Hermes * (string * option error)) :=
  let! '(h, err) := SetDefaultHermesValues h in
  match err with
  | Some e => ret (h, ("", Some e))
  | None =>
      let! tplt := Theme_method PlainTextTemplate (Hermes_Theme h) in
      let! '(template, err) := generateTemplate h email tplt in
      match err with
      | Some e => ret (h, ("", Some e))
      | None =>
          let! r := FromString template {| PrettyTables := true |} in
          ret (h, r)
      end
  end.

(** ** A call site

    A caller holding an engine value [h] and an [Email] in two variables and
    calling [h.GenerateHTML(email)]: the receiver goes by address, so the
    callee's writes to [*h] land in the caller's variable; the email goes by
    value, so the callee works on a copy of the struct (which still shares
    the map objects of the heap). *)
Record frame : Type := mkFrame {
  var_h : Hermes;
  var_email : Email
}.

Definition at_call_site (method : Hermes -> Email -> M (Hermes * (string * option error)))
    (f : frame) : M (frame * (string * option error)) :=
  let! '(h, r) := method (var_h f) (var_email f) in
  ret ({| var_h := h; var_email := var_email f |}, r).

(** ** The facade as a sequence of stages

    The specification describes each entry point as a chain of stages, each
    of which may abort the chain with an error.  [pipeline] runs such a
    chain; the stages are the components of the system overview. *)
Inductive stage : Type :=
| MergeEngineDefaults
| MergeEmailDefaults
| RenderTemplate (which : ThemeImpl -> string)
| InlineCSS
| ConvertToPlainText.

Record pstate : Type := mkPstate {
  ps_config : Hermes;
  ps_email : Email;
  ps_out : string
}.

Definition set_out (st : pstate) (out : string) : pstate :=
  {| ps_config := ps_config st; ps_email := ps_email st; ps_out := out |}.

Definition run_stage (s : stage) (st : pstate) : M (pstate * option error) :=
  match s with
  | MergeEngineDefaults =>
      let! '(h, err) := SetDefaultHermesValues (ps_config st) in
      ret ({| ps_config := h; ps_email := ps_email st; ps_out := "" |}, err)
  | MergeEmailDefaults =>
      let! '(e, err) := SetDefaultEmailValues (ps_email st) in
      ret ({| ps_config := ps_config st; ps_email := e; ps_out := "" |}, err)
  | RenderTemplate which =>
      let! tplt := Theme_method which (Hermes_Theme (ps_config st)) in
      let! '(t, err) := Parse hermesTemplate tplt in
      match err with
      | Some e => ret (set_out st "", Some e)
      | None =>
          let! '(b, err) :=
            Execute t {| Template_Hermes := ps_config st;
                         Template_Email := ps_email st |} in
          match err with
          | Some e => ret (set_out st "", Some e)
          | None => ret (set_out st b, None)
          end
      end
  | InlineCSS =>
      if DisableCSSInlining (ps_config st) then ret (st, None)
      else
        let! '(prem, err) := NewPremailerFromString (ps_out st) in
        match err with
        | Some e => ret (set_out st "", Some e)
        | None =>
            let! '(html, err) := Transform prem in
            match err with
            | Some e => ret (set_out st "", Some e)
            | None => ret (set_out st html, None)
            end
        end
  | ConvertToPlainText =>
      let! '(text, err) := FromString (ps_out st) {| PrettyTables := true |} in
      ret (set_out st text, err)
  end.

Fixpoint run_stages (l : list stage) (st : pstate) : M (pstate * option error) :=
  match l with
  | [] => ret (st, None)
  | s :: l' =>
      let! '(st', err) := run_stage s st in
      match err with
      | Some e => ret (st', Some e)
      | None => run_stages l' st'
      end
  end.

Definition pipeline (l : list stage) (h : Hermes) (email : Email)
  : M (Hermes * (string * option error)) :=
  let! '(st, err) := run_stages l {| ps_config := h; ps_email := email; ps_out := "" |} in
  ret (ps_config st, (ps_out st, err)).

(** The two chains as the specification gives them. *)
Definition spec_GenerateHTML : Hermes -> Email -> M (Hermes * (string * option error)) :=
  pipeline [MergeEngineDefaults; MergeEmailDefaults;
            RenderTemplate HTMLTemplate; InlineCSS].

Definition spec_GeneratePlainText : Hermes -> Email -> M (Hermes * (string * option error)) :=
  pipeline [MergeEngineDefaults; MergeEmailDefaults;
            RenderTemplate PlainTextTemplate; ConvertToPlainText].

(** The plain-text chain with the CSS stage the code shares with the HTML
    path. *)
Definition inlining_GeneratePlainText : Hermes -> Email -> M (Hermes * (string * option error)) :=
  pipeline [MergeEngineDefaults; MergeEmailDefaults;
            RenderTemplate PlainTextTemplate; InlineCSS; ConvertToPlainText].

End Engine.

(** ** Markdown.ToHTML

    [func (c Markdown) ToHTML() template.HTML]: the bytes of the string are
    handed to [blackfriday.Run] and the bytes it returns are read back as a
    string.  The library is taken as an input/output relation, so that
    neither its totality nor its determinism is built into the model. *)
Module MarkdownRenderer.

Section ToHTML.

Variable blackfriday_Run : list byte -> list byte -> Prop.

Inductive ToHTML (c : Markdown) : HTML -> Prop :=
| ToHTML_Run (out : list byte) :
    blackfriday_Run (list_byte_of_string c) out ->
    ToHTML c (string_of_list_byte out).

End ToHTML.

(** The same method over a library given as a function. *)
Definition ToHTML_fun (run : list byte -> list byte) (c : Markdown) : HTML :=
  string_of_list_byte (run (list_byte_of_string c)).

End MarkdownRenderer.

(** ** Stand-ins for the collaborators

    A small set of collaborators on which the engine can be run: a theme, a
    parser that rejects an unknown helper, an executor that writes the
    greeting line, an inliner that wraps the document, a text converter. *)
Module Sample.

Definition contains (needle hay : string) : bool :=
  match String.index 0 needle hay with
  | Some _ => true
  | None => false
  end.

Definition theme : ThemeImpl :=
  {| Name := "default";
     HTMLTemplate := "<p>{{.Email.Body.Greeting}} {{.Email.Body.Name}}</p>";
     PlainTextTemplate := "{{.Email.Body.Greeting}} {{.Email.Body.Name}}";
     Theme_pointer := true;
     Theme_fields := [] |}.

(** A theme whose HTML template calls a helper nobody defines. *)
Definition broken_theme : ThemeImpl :=
  {| Name := "broken";
     HTMLTemplate := "<p>{{nope .Email.Body.Name}}</p>";
     PlainTextTemplate := "{{nope .Email.Body.Name}}";
     Theme_pointer := true;
     Theme_fields := [] |}.

Definition parse (t : TemplateDef) (tplt : string) : string * option error :=
  if contains "{{nope" tplt
  then ("", Some "template: hermes:1: function nope not defined")
  else (tplt, None).

Definition execute (t : string) (data : Template) (σ : heap) : string * option error :=
  let b := Email_Body (Template_Email data) in
  if contains "{{.Email.Body.Name}}" t
  then (Greeting b ++ " " ++ Body_Name b ++ ", " ++ Signature b, None)
  else (Greeting b, Some "template: hermes: nothing to execute").

Definition new_premailer (doc : string) : string * option error :=
  if contains "<style>{" doc
  then ("", Some "premailer: malformed style")
  else (doc, None).

Definition transform (prem : string) : string * option error :=
  ("<html>" ++ prem ++ "</html>", None).

Definition from_string (input : string) (o : html2text_Options) : string * option error :=
  if contains "<<" input
  then ("", Some "html2text: malformed input")
  else (input, None).

Definition externals : Externals :=
  {| themes_Default := theme;
     themes_Default_pointer := eq_refl;
     themes_Default_fields := eq_refl;
     sprig_FuncMap := [("upper", sprig_helper "upper")];
     parsed := string;
     template_Parse := parse;
     template_Execute := execute;
     premailer := string;
     premailer_NewPremailerFromString := new_premailer;
     premailer_Transform := transform;
     html2text_FromString := from_string |}.

(** An inliner that rejects every document. *)
Definition failing_inliner : Externals :=
  {| themes_Default := theme;
     themes_Default_pointer := eq_refl;
     themes_Default_fields := eq_refl;
     sprig_FuncMap := [("upper", sprig_helper "upper")];
     parsed := string;
     template_Parse := parse;
     template_Execute := execute;
     premailer := string;
     premailer_NewPremailerFromString :=
       fun _ => ("", Some "premailer: malformed style");
     premailer_Transform := transform;
     html2text_FromString := from_string |}.

Definition empty_world : world :=
  {| world_heap := ∅; world_log := []; world_panic := None |}.

(** The e-mail of the invite-code example. *)
Definition invite_code : Email :=
  {| Email_Body :=
       {| Body_Name := "Jon Snow";
          Intros := mk_slice ["Welcome to Hermes! We're very excited to have you on board."];
          Dictionary := nil_slice;
          Body_Table := zeroTable;
          Actions := mk_slice [ {| Instructions := "Please copy your invite code:";
                                   Action_Button := {| Color := ""; TextColor := "";
                                                       Text := ""; Button_Link := "" |};
                                   InviteCode := "123456" |} ];
          Outros := mk_slice ["Need help, or have questions? Just reply to this email, we'd love to help."];
          Greeting := "";
          Signature := "";
          Title := "";
          FreeMarkdown := "" |} |}.

(** The engine value of the example program. *)
Definition example_engine : Hermes :=
  {| Hermes_Theme := Some theme;
     Brand := {| Brand_Name := "Hermes";
                 Link := "https://example-hermes.com/";
                 Logo := "https://github.com/matcornic/hermes/blob/master/examples/gopher.png?raw=true";
                 Copyright := "";
                 TroubleText := "" |};
     Hermes_TextDirection := "";
     DisableCSSInlining := false |}.

(** A stand-in for the library: the text wrapped in a paragraph. *)
Definition paragraph (input : list byte) : list byte :=
  (list_byte_of_string "<p>" ++ input ++ list_byte_of_string "</p>")%list.

Definition example_frame : frame :=
  {| var_h := example_engine; var_email := invite_code |}.

(** The engine value of the example program with inlining switched off. *)
Definition no_inlining_engine : Hermes :=
  {| Hermes_Theme := Hermes_Theme example_engine;
     Brand := Brand example_engine;
     Hermes_TextDirection := Hermes_TextDirection example_engine;
     DisableCSSInlining := true |}.

(** An engine value with a theme of its own, whose templates do not parse. *)
Definition broken_engine : Hermes :=
  {| Hermes_Theme := Some broken_theme;
     Brand := zeroBranding;
     Hermes_TextDirection := "rtl";
     DisableCSSInlining := false |}.

(** A fully populated engine value and e-mail. *)
Definition complete_engine : Hermes :=
  {| Hermes_Theme := Some theme;
     Brand := {| Brand_Name := "Acme"; Link := ""; Logo := "";
                 Copyright := "Copyright Acme"; TroubleText := "Copy the link of {ACTION}." |};
     Hermes_TextDirection := "rtl";
     DisableCSSInlining := false |}.

Definition complete_email : Email :=
  {| Email_Body :=
       {| Body_Name := "Jon Snow"; Intros := nil_slice; Dictionary := nil_slice;
          Body_Table := zeroTable; Actions := nil_slice; Outros := nil_slice;
          Greeting := "Dear"; Signature := "Regards"; Title := "";
          FreeMarkdown := "" |} |}.

(** A theme of the caller's own: a pointer to a struct with one exported
    field. *)
Definition accent_theme : ThemeImpl :=
  {| Name := "accent";
     HTMLTemplate := "<p>{{.Email.Body.Greeting}} {{.Email.Body.Name}}</p>";
     PlainTextTemplate := "{{.Email.Body.Greeting}} {{.Email.Body.Name}}";
     Theme_pointer := true;
     Theme_fields := [ {| field_name := "Accent"; field_exported := true |} ] |}.

(** The same struct type used by value. *)
Definition accent_value_theme : ThemeImpl :=
  {| Name := "accent";
     HTMLTemplate := "<p>{{.Email.Body.Greeting}} {{.Email.Body.Name}}</p>";
     PlainTextTemplate := "{{.Email.Body.Greeting}} {{.Email.Body.Name}}";
     Theme_pointer := false;
     Theme_fields := [ {| field_name := "Accent"; field_exported := true |} ] |}.

(** Such a theme with templates that do not parse. *)
Definition accent_broken_theme : ThemeImpl :=
  {| Name := "accent_broken";
     HTMLTemplate := "<p>{{nope .Email.Body.Name}}</p>";
     PlainTextTemplate := "{{nope .Email.Body.Name}}";
     Theme_pointer := true;
     Theme_fields := [ {| field_name := "Accent"; field_exported := true |} ] |}.

(** A fully populated engine value with a theme. *)
Definition populated_engine (th : ThemeImpl) (disable : bool) : Hermes :=
  {| Hermes_Theme := Some th;
     Brand := {| Brand_Name := "Acme"; Link := ""; Logo := "";
                 Copyright := "Copyright Acme"; TroubleText := "Copy the link of {ACTION}." |};
     Hermes_TextDirection := "rtl";
     DisableCSSInlining := disable |}.

(** An engine value on which only that theme is set. *)
Definition accent_engine : Hermes :=
  {| Hermes_Theme := Some accent_theme;
     Brand := zeroBranding;
     Hermes_TextDirection := "";
     DisableCSSInlining := false |}.

Definition accent_frame : frame :=
  {| var_h := accent_engine; var_email := invite_code |}.



End Sample.

(** ** What the properties are stated with *)

(** The world after more calls were logged. *)
Definition logged (w : world) (cs : list call) : world :=
  {| world_heap := world_heap w; world_log := (world_log w ++ cs)%list;
     world_panic := world_panic w |}.

(** The default case of the walk against a non-empty default. *)
Definition fill (d v : string) : string :=
  if isEmptyString v then d else v.

(** The e-mail [SetDefaultEmailValues] leaves behind, field by field. *)
Definition Email_after_merge (e : Email) : Email :=
  let b := Email_Body e in
  {| Email_Body :=
       {| Body_Name := Body_Name b; Intros := Intros b;
          Dictionary := Dictionary b; Body_Table := Body_Table b;
          Actions := Actions b; Outros := Outros b;
          Greeting := fill "Hi" (Greeting b);
          Signature := fill "Yours truly" (Signature b);
          Title := Title b; FreeMarkdown := FreeMarkdown b |} |}.

(** Whether merging the engine defaults into an engine value with this
    theme panics: the built-in theme is a pointer to a struct without
    fields, so the walk reaches the caller's struct only behind a pointer and
    fails on the first field when that struct has a mergeable one. *)
Definition mergo_panics (t : Theme) : bool :=
  match t with
  | Some d => Theme_pointer d && hasMergeableFields d
  | None => false
  end.

(** The world a panic with the value [v] leaves. *)
Definition panicking (w : world) (v : error) : world :=
  {| world_heap := world_heap w; world_log := world_log w; world_panic := Some v |}.

Section ClosedForms.

Context `{X : Externals}.

(** The theme the engine renders with: the caller's, or the built-in one. *)
Definition selected_theme (h : Hermes) : ThemeImpl :=
  match Hermes_Theme h with
  | Some t => t
  | None => themes_Default
  end.

(** The engine value [SetDefaultHermesValues] leaves behind. *)
Definition Hermes_after_merge (h : Hermes) : Hermes :=
  {| Hermes_Theme := Some (selected_theme h);
     Brand := {| Brand_Name := fill "Hermes" (Brand_Name (Brand h));
                 Link := Link (Brand h);
                 Logo := Logo (Brand h);
                 Copyright := fill defaultCopyright (Copyright (Brand h));
                 TroubleText := fill defaultTroubleText (TroubleText (Brand h)) |};
     Hermes_TextDirection := fill "ltr" (Hermes_TextDirection h);
     DisableCSSInlining := DisableCSSInlining h |}.

(** The CSS step of [generateTemplate] on the buffer [b]: its results and
    the calls it makes. *)
Definition inline_css (b : string) : (string * option error) * list call :=
  match premailer_NewPremailerFromString b with
  | (_, Some e) => (("", Some e), [call_premailer_NewPremailerFromString b])
  | (prem, None) =>
      match premailer_Transform prem with
      | (_, Some e) =>
          (("", Some e),
           [call_premailer_NewPremailerFromString b; call_premailer_Transform])
      | (html, None) =>
          ((html, None),
           [call_premailer_NewPremailerFromString b; call_premailer_Transform])
      end
  end.

(** What [generateTemplate] returns and the calls it makes, case by case on
    what the collaborators answer. *)
Definition render (h : Hermes) (email : Email) (tplt : string) (σ : heap)
  : (string * option error) * list call :=
  match template_Parse hermesTemplate tplt with
  | (_, Some e) =>
      (("", Some e), [call_mergo_Merge_Email; call_template_Parse tplt])
  | (t, None) =>
      match template_Execute t {| Template_Hermes := h;
                                  Template_Email := Email_after_merge email |} σ with
      | (_, Some e) =>
          (("", Some e),
           [call_mergo_Merge_Email; call_template_Parse tplt; call_template_Execute])
      | (b, None) =>
          if DisableCSSInlining h
          then ((b, None),
                [call_mergo_Merge_Email; call_template_Parse tplt; call_template_Execute])
          else (fst (inline_css b),
                [call_mergo_Merge_Email; call_template_Parse tplt; call_template_Execute]
                  ++ snd (inline_css b))%list
      end
  end.

(** The last step of the plain-text path on what [generateTemplate]
    returned. *)
Definition to_text (r : (string * option error) * list call)
  : (string * option error) * list call :=
  match r with
  | ((_, Some e), cs) => (("", Some e), cs)
  | ((template, None), cs) =>
      (html2text_FromString template {| PrettyTables := true |},
       (cs ++ [call_html2text_FromString template])%list)
  end.

End ClosedForms.

(** A string field after the merge against the default [d]: the default
    when the field was empty, the caller's value otherwise. *)
Definition string_filled (d old new : string) : Prop :=
  (old = "" -> new = d) /\ (old <> "" -> new = old).

(** An interface field after the merge against the default [d]. *)
Definition theme_filled (d : ThemeImpl) (old new : Theme) : Prop :=
  (old = None -> new = Some d) /\ (old <> None -> new = old).

(** The body [b'] is [b] with the e-mail defaults filled in: the two
    strings whose default is not empty, and nothing else.  The empty slices
    of the default table are empty sources, which the walk never copies, so
    the three slice fields are the caller's, a [nil] one included. *)
Definition Body_filled (b b' : Body) : Prop :=
  string_filled "Hi" (Greeting b) (Greeting b') /\
  string_filled "Yours truly" (Signature b) (Signature b') /\
  Intros b' = Intros b /\
  Dictionary b' = Dictionary b /\
  Outros b' = Outros b /\
  Body_Name b' = Body_Name b /\
  Body_Table b' = Body_Table b /\
  Actions b' = Actions b /\
  Title b' = Title b /\
  FreeMarkdown b' = FreeMarkdown b.

(** The engine value [h'] is [h] with the engine defaults filled in, [d]
    being the built-in theme. *)
Definition Hermes_filled (d : ThemeImpl) (h h' : Hermes) : Prop :=
  theme_filled d (Hermes_Theme h) (Hermes_Theme h') /\
  string_filled "ltr" (Hermes_TextDirection h) (Hermes_TextDirection h') /\
  string_filled "Hermes" (Brand_Name (Brand h)) (Brand_Name (Brand h')) /\
  string_filled "Copyright © 2024 Hermes. All rights reserved."
    (Copyright (Brand h)) (Copyright (Brand h')) /\
  string_filled
    "If you’re having trouble with the button '{ACTION}', copy and paste the URL below into your web browser."
    (TroubleText (Brand h)) (TroubleText (Brand h')) /\
  Link (Brand h') = Link (Brand h) /\
  Logo (Brand h') = Logo (Brand h) /\
  DisableCSSInlining h' = DisableCSSInlining h.

(** No field that has a default is empty. *)
Definition Email_populated (e : Email) : bool :=
  negb (isEmptyString (Greeting (Email_Body e))) &&
  negb (isEmptyString (Signature (Email_Body e))).

Definition Hermes_populated (h : Hermes) : bool :=
  negb (isNilTheme (Hermes_Theme h)) &&
  negb (isEmptyString (Hermes_TextDirection h)) &&
  negb (isEmptyString (Brand_Name (Brand h))) &&
  negb (isEmptyString (Copyright (Brand h))) &&
  negb (isEmptyString (TroubleText (Brand h))).

(** The calls into premailer. *)
Definition is_inliner_call (c : call) : bool :=
  match c with
  | call_premailer_NewPremailerFromString _ => true
  | call_premailer_Transform => true
  | _ => false
  end.

(** ** The helpers a template can call *)

(** The helper a name resolves to in a template under construction: the
    entry of the latest [Funcs] call that has the name. *)
Fixpoint lookup_helper (name : string) (m : FuncMap) : option helper :=
  match m with
  | [] => None
  | (n, f) :: m' => if String.eqb n name then Some f else lookup_helper name m'
  end.

Definition helper_of (t : TemplateDef) (name : string) : option helper :=
  lookup_helper name (def_funcs t).

(** ** The example program

    [examples/main.go] and the example e-mails it renders: the program
    builds one engine value, renders every example with every theme into
    files, and, when asked to, mails the files.  The host (environment,
    terminal, file system, SMTP) answers each call in a way that may depend
    on all the calls made before. *)
Module Program.

(** The [example] interface: an e-mail and a name. *)
Record example : Type := mkExample {
  example_Email : Email;
  example_Name : string
}.

(** [mails.InviteCode]. *)
Definition InviteCode : example :=
  {| example_Email :=
       {| Email_Body :=
            {| Body_Name := "Jon Snow";
               Intros := mk_slice ["Welcome to Hermes! We're very excited to have you on board."];
               Dictionary := nil_slice;
               Body_Table := zeroTable;
               Actions := mk_slice [ {| Instructions := "Please copy your invite code:";
                                        Action_Button := {| Color := ""; TextColor := "";
                                                            Text := ""; Button_Link := "" |};
                                        InviteCode := "123456" |} ];
               Outros := mk_slice ["Need help, or have questions? Just reply to this email, we'd love to help."];
               Greeting := ""; Signature := ""; Title := ""; FreeMarkdown := "" |} |};
     example_Name := "invite_code" |}.

(** [mails.Maintenance]: only a name and free Markdown. *)
Definition Maintenance : example :=
  {| example_Email :=
       {| Email_Body :=
            {| Body_Name := "Jon Snow";
               Intros := nil_slice; Dictionary := nil_slice; Body_Table := zeroTable;
               Actions := nil_slice; Outros := nil_slice;
               Greeting := ""; Signature := ""; Title := "";
               FreeMarkdown := "
> _Hermes_ service will shutdown the **1st August 2017** for maintenance operations. 

Services will be unavailable based on the following schedule:

| Services | Downtime |
| :------:| :-----------: |
| Service A | 2AM to 3AM |
| Service B | 4AM to 5AM |
| Service C | 5AM to 6AM |

Feel free to contact us for any question regarding this matter at [support@hermes-example.com](mailto:support@hermes-example.com) or in our [Gitter](https://gitter.im/)

" |} |};
     example_Name := "maintenance" |}.

Record smtpAuthentication : Type := mkSmtpAuthentication {
  Server : string;
  Port : Z;
  SenderEmail : string;
  SenderIdentity : string;
  SMTPUser : string;
  SMTPPassword : string
}.

Record sendOptions : Type := mkSendOptions {
  To : string;
  Subject : string
}.

(** [mail.Address] of net/mail. *)
Record Address : Type := mkAddress {
  Address_Name : string;
  Address_Address : string
}.

(** A gomail message as the program builds it: header fields and the
    ordered parts of the body, each a content type and a text. *)
Record Message : Type := mkMessage {
  header : gmap string (list string);
  parts : list (string * string)
}.

Definition NewMessage : Message := {| header := ∅; parts := [] |}.

Definition SetHeader (field : string) (value : list string) (m : Message) : Message :=
  {| header := <[field := value]> (header m); parts := parts m |}.

Definition SetBody (contentType body : string) (m : Message) : Message :=
  {| header := header m; parts := [(contentType, body)] |}.

Definition AddAlternative (contentType body : string) (m : Message) : Message :=
  {| header := header m; parts := (parts m ++ [(contentType, body)])%list |}.

(** What [gomail.NewDialer] is given. *)
Record Dialer : Type := mkDialer {
  Dialer_Host : string;
  Dialer_Port : Z;
  Dialer_Username : string;
  Dialer_Password : string
}.

Inductive host_call : Type :=
| call_os_Getenv (key : string)
| call_fmt_Print (text : string)
| call_term_ReadPassword (fd : Z)
| call_os_MkdirAll (path : string) (perm : N)
| call_os_WriteFile (name : string) (data : string) (perm : N)
| call_os_ReadFile (name : string)
| call_gomail_DialAndSend (d : Dialer) (m : Message).

(** The host: every answer is a function of the calls made so far.
    [mails_Welcome], [mails_Reset] and [mails_Receipt] stand for the three
    example e-mails of package [examples/mails] the program lists besides
    the two above. *)
Class Host : Type := mkHost {
  os_Getenv : list host_call -> string -> string;
  strconv_Atoi : string -> Z * option error;
  term_ReadPassword : list host_call -> Z -> string * option error;
  os_MkdirAll : list host_call -> string -> N -> option error;
  os_WriteFile : list host_call -> string -> string -> N -> option error;
  os_ReadFile : list host_call -> string -> string * option error;
  mail_Address_String : Address -> string;
  gomail_DialAndSend : list host_call -> Dialer -> Message -> option error;
  mails_Welcome : example;
  mails_Reset : example;
  mails_Receipt : example
}.

(** A run of the program either completes or stops in a panic that
    carries a value. *)
Inductive outcome (A : Type) : Type :=
| Done (a : A)
| Panic (v : error).
Arguments Done {A} a.
Arguments Panic {A} v.

Record pworld : Type := mkPworld {
  engine_world : world;
  host_log : list host_call
}.

Definition P (A : Type) : Type := pworld -> outcome A * pworld.

Definition pret {A} (a : A) : P A := fun pw => (Done a, pw).

Definition pbind {A B} (m : P A) (f : A -> P B) : P B :=
  fun pw =>
    match m pw with
    | (Done a, pw') => f a pw'
    | (Panic v, pw') => (Panic v, pw')
    end.

Notation "'let*' x ':=' m 'in' k" := (pbind m (fun x => k))
  (at level 10, x name, m at level 100, k at level 200, only parsing).
Notation "'let*' ' pat ':=' m 'in' k" :=
  (pbind m (fun x => match x with pat => k end))
  (at level 10, pat pattern, m at level 100, k at level 200, only parsing).

(** [panic(err)]. *)
Definition ppanic {A} (v : error) : P A := fun pw => (Panic v, pw).

(** A call into the engine runs on the engine's part of the world; a
    panic of the engine goes on with its value. *)
Definition lift {A} (m : M A) : P A :=
  fun pw =>
    match m (engine_world pw) with
    | (Some a, w) => (Done a, {| engine_world := w; host_log := host_log pw |})
    | (None, w) =>
        (Panic (default "" (world_panic w)),
         {| engine_world := w; host_log := host_log pw |})
    end.

(** A call to the host: answered from the calls made so far, then
    recorded. *)
Definition host {A} (c : host_call) (answer : list host_call -> A) : P A :=
  fun pw =>
    (Done (answer (host_log pw)),
     {| engine_world := engine_world pw; host_log := (host_log pw ++ [c])%list |}).

Definition nl : string := String (ascii_of_nat 10) "".

(** [fmt.Sprintf("examples/%v/%v.%v.html", theme, theme, example)] and its
    [.txt] twin, on strings. *)
Definition html_path (theme example : string) : string :=
  "examples/" ++ theme ++ "/" ++ theme ++ "." ++ example ++ ".html".

Definition txt_path (theme example : string) : string :=
  "examples/" ++ theme ++ "/" ++ theme ++ "." ++ example ++ ".txt".

Section Main.

Context `{X : Externals} `{H : Host}.

Definition Getenv (key : string) : P string :=
  host (call_os_Getenv key) (fun log => os_Getenv log key).

Definition Println (s : string) : P unit :=
  host (call_fmt_Print (s ++ nl)) (fun _ => tt).

Definition Printf (s : string) : P unit :=
  host (call_fmt_Print s) (fun _ => tt).

Definition ReadPassword (fd : Z) : P (string * option error) :=
  host (call_term_ReadPassword fd) (fun log => term_ReadPassword log fd).

Definition MkdirAll (path : string) (perm : N) : P (option error) :=
  host (call_os_MkdirAll path perm) (fun log => os_MkdirAll log path perm).

Definition WriteFile (name data : string) (perm : N) : P (option error) :=
  host (call_os_WriteFile name data perm) (fun log => os_WriteFile log name data perm).

Definition ReadFile (name : string) : P (string * option error) :=
  host (call_os_ReadFile name) (fun log => os_ReadFile log name).

Definition DialAndSend (d : Dialer) (m : Message) : P (option error) :=
  host (call_gomail_DialAndSend d m) (fun log => gomail_DialAndSend log d m).

(** [h.Theme.Name()]. *)
Definition Theme_Name (h : Hermes) : P string :=
  lift (Theme_method Name (Hermes_Theme h)).

(** [func generateEmails(h hermes.Hermes, email hermes.Email, example
    string)]; 484 is [0744] and 420 is [0644]. *)
Definition generateEmails (h : Hermes) (email : Email) (example : string) : P unit :=
  let* '(h, (res, err)) := lift (GenerateHTML h email) in
  match err with
  | Some e => ppanic e
  | None =>
      let* dir := Theme_Name h in
      let* err := MkdirAll dir 484 in
      match err with
      | Some e => ppanic e
      | None =>
          let* t1 := Theme_Name h in
          let* t2 := Theme_Name h in
          let* err := WriteFile ("examples/" ++ t1 ++ "/" ++ t2 ++ "." ++ example ++ ".html")
                        res 420 in
          match err with
          | Some e => ppanic e
          | None =>
              let* '(h, (res, err)) := lift (GeneratePlainText h email) in
              match err with
              | Some e => ppanic e
              | None =>
                  let* t1 := Theme_Name h in
                  let* t2 := Theme_Name h in
                  let* err := WriteFile
                                ("examples/" ++ t1 ++ "/" ++ t2 ++ "." ++ example ++ ".txt")
                                res 420 in
                  match err with
                  | Some e => ppanic e
                  | None => pret tt
                  end
              end
          end
      end
  end.

(** [func send(smtpConfig, options, htmlBody, txtBody) error]. *)
Definition send (smtpConfig : smtpAuthentication) (options : sendOptions)
    (htmlBody txtBody : string) : P (option error) :=
  if String.eqb (Server smtpConfig) "" then pret (Some "SMTP server config is empty")
  else if Z.eqb (Port smtpConfig) 0 then pret (Some "SMTP port config is empty")
  else if String.eqb (SMTPUser smtpConfig) "" then pret (Some "SMTP user is empty")
  else if String.eqb (SenderIdentity smtpConfig) ""
       then pret (Some "SMTP sender identity is empty")
  else if String.eqb (SenderEmail smtpConfig) ""
       then pret (Some "SMTP sender email is empty")
  else if String.eqb (To options) "" then pret (Some "no receiver emails configured")
  else
    let from := {| Address_Name := SenderIdentity smtpConfig;
                   Address_Address := SenderEmail smtpConfig |} in
    let m := NewMessage in
    let m := SetHeader "From" [mail_Address_String from] m in
    let m := SetHeader "To" [To options] m in
    let m := SetHeader "Subject" [Subject options] m in
    let m := SetBody "text/plain" txtBody m in
    let m := AddAlternative "text/html" htmlBody m in
    let d := {| Dialer_Host := Server smtpConfig; Dialer_Port := Port smtpConfig;
                Dialer_Username := SMTPUser smtpConfig;
                Dialer_Password := SMTPPassword smtpConfig |} in
    DialAndSend d m.

(** [h.Theme = theme]. *)
Definition set_Theme (h : Hermes) (theme : Theme) : Hermes :=
  {| Hermes_Theme := theme; Brand := Brand h;
     Hermes_TextDirection := Hermes_TextDirection h;
     DisableCSSInlining := DisableCSSInlining h |}.

(** [for _, e := range examples { body }]. *)
Fixpoint range_examples (examples : list example) (body : example -> P unit) : P unit :=
  match examples with
  | [] => pret tt
  | e :: rest =>
      let* _ := body e in
      range_examples rest body
  end.

(** [for _, theme := range themes { h.Theme = theme; body }], returning
    the engine value the loop leaves in [h]. *)
Fixpoint range_themes (themes : list Theme) (h : Hermes) (body : Hermes -> P unit)
  : P Hermes :=
  match themes with
  | [] => pret h
  | theme :: rest =>
      let h := set_Theme h theme in
      let* _ := body h in
      range_themes rest h body
  end.

(** The first pair of loops of [main]: render every example with every
    theme. *)
Definition generate_all (h : Hermes) (themes : list Theme) (examples : list example)
  : P Hermes :=
  range_themes themes h
    (fun h => range_examples examples
                (fun e => generateEmails h (example_Email e) (example_Name e))).

(** The body of the second pair of loops: mail one rendered example. *)
Definition send_example (smtpConfig : smtpAuthentication) (options : sendOptions)
    (h : Hermes) (e : example) : P sendOptions :=
  let* t := Theme_Name h in
  let options := {| To := To options;
                    Subject := "Hermes | " ++ t ++ " | " ++ example_Name e |} in
  let* _ := Printf ("Sending email '" ++ Subject options ++ "'..." ++ nl) in
  let* t1 := Theme_Name h in
  let* t2 := Theme_Name h in
  let* '(htmlBytes, err) :=
    ReadFile ("examples/" ++ t1 ++ "/" ++ t2 ++ "." ++ example_Name e ++ ".html") in
  match err with
  | Some v => ppanic v
  | None =>
      let* t1 := Theme_Name h in
      let* t2 := Theme_Name h in
      let* '(txtBytes, err) :=
        ReadFile ("examples/" ++ t1 ++ "/" ++ t2 ++ "." ++ example_Name e ++ ".txt") in
      match err with
      | Some v => ppanic v
      | None =>
          let* err := send smtpConfig options htmlBytes txtBytes in
          match err with
          | Some v => ppanic v
          | None => pret options
          end
      end
  end.

(** [options] is assigned in the body, so the loops thread it. *)
Fixpoint send_examples (smtpConfig : smtpAuthentication) (options : sendOptions)
    (h : Hermes) (examples : list example) : P sendOptions :=
  match examples with
  | [] => pret options
  | e :: rest =>
      let* options := send_example smtpConfig options h e in
      send_examples smtpConfig options h rest
  end.

Fixpoint send_all (smtpConfig : smtpAuthentication) (options : sendOptions)
    (h : Hermes) (themes : list Theme) (examples : list example) : P unit :=
  match themes with
  | [] => pret tt
  | theme :: rest =>
      let h := set_Theme h theme in
      let* options := send_examples smtpConfig options h examples in
      send_all smtpConfig options h rest examples
  end.

Definition banner_open : string := ">>>>>>>>>>>>>>>>>>>>>>>>>>>>>>>>>>>>>>>>>>>>>>".
Definition banner_close : string := "<<<<<<<<<<<<<<<<<<<<<<<<<<<<<<<<<<<<<<<<<<<<<<".

(** [func main()]. *)
Definition main : P unit :=
  let h := {| Hermes_Theme := None;
              Brand := {| Brand_Name := "Hermes";
                          Link := "https://example-hermes.com/";
                          Logo := "https://github.com/matcornic/hermes/blob/master/examples/gopher.png?raw=true";
                          Copyright := "";
                          TroubleText := "" |};
              Hermes_TextDirection := "";
              DisableCSSInlining := false |} in
  let* v := Getenv "HERMES_SEND_EMAILS" in
  let sendEmails := String.eqb v "true" in
  let examples := [mails_Welcome; mails_Reset; Maintenance; mails_Receipt; InviteCode] in
  let themes := [Some themes_Default] in
  let* h := generate_all h themes examples in
  if sendEmails then
    let* _ := Println banner_open in
    let* v := Getenv "HERMES_SMTP_PORT" in
    let* _ := Println v in
    let* v := Getenv "HERMES_SMTP_USER" in
    let* _ := Println v in
    let* v := Getenv "HERMES_SMTP_SERVER" in
    let* _ := Println v in
    let* v := Getenv "HERMES_SENDER_EMAIL" in
    let* _ := Println v in
    let* v := Getenv "HERMES_SENDER_IDENTITY" in
    let* _ := Println v in
    let* v := Getenv "HERMES_TO" in
    let* _ := Println v in
    let* _ := Println banner_close in
    let* v := Getenv "HERMES_SMTP_PORT" in
    let port := fst (strconv_Atoi v) in
    let* password := Getenv "HERMES_SMTP_PASSWORD" in
    let* SMTPUser := Getenv "HERMES_SMTP_USER" in
    let* password :=
      (if String.eqb password "" then
         let* _ := Printf ("Enter SMTP password of '" ++ SMTPUser ++ "' account: ") in
         let* '(bytePassword, _) := ReadPassword 0 in
         pret bytePassword
       else pret password) in
    let* server := Getenv "HERMES_SMTP_SERVER" in
    let* senderEmail := Getenv "HERMES_SENDER_EMAIL" in
    let* senderIdentity := Getenv "HERMES_SENDER_IDENTITY" in
    let smtpConfig := {| Server := server; Port := port; SenderEmail := senderEmail;
                         SenderIdentity := senderIdentity; SMTPUser := SMTPUser;
                         SMTPPassword := password |} in
    let* to := Getenv "HERMES_TO" in
    let options := {| To := to; Subject := "" |} in
    send_all smtpConfig options h themes examples
  else pret tt.

End Main.

End Program.

(** ** A stand-in for the host

    An environment given as a function, a file system that accepts every
    write and reads back what was last written under a name, and an SMTP
    server that accepts every message. *)
Module SampleHost.

Import Program.

Fixpoint last_written (log : list host_call) (name : string) : option string :=
  match log with
  | [] => None
  | c :: rest =>
      match last_written rest name with
      | Some data => Some data
      | None =>
          match c with
          | call_os_WriteFile n data _ => if String.eqb n name then Some data else None
          | _ => None
          end
      end
  end.

Definition read_file (log : list host_call) (name : string) : string * option error :=
  match last_written log name with
  | Some data => (data, None)
  | None => ("", Some ("open " ++ name ++ ": no such file or directory"))
  end.

Definition atoi (v : string) : Z * option error :=
  if String.eqb v "587" then (587%Z, None)
  else if String.eqb v "465" then (465%Z, None)
  else (0%Z, Some "strconv.Atoi: invalid syntax").

Definition address_string (a : Address) : string :=
  Address_Name a ++ " <" ++ Address_Address a ++ ">".

Definition plain_example (name : string) : example :=
  {| example_Email :=
       {| Email_Body :=
            {| Body_Name := "Jon Snow";
               Intros := nil_slice; Dictionary := nil_slice; Body_Table := zeroTable;
               Actions := nil_slice; Outros := nil_slice;
               Greeting := ""; Signature := ""; Title := ""; FreeMarkdown := "" |} |};
     example_Name := name |}.

Definition host_with (env : string -> string) : Host :=
  {| os_Getenv := fun _ key => env key;
     strconv_Atoi := atoi;
     term_ReadPassword := fun _ _ => ("secret", None);
     os_MkdirAll := fun _ _ _ => None;
     os_WriteFile := fun _ _ _ _ => None;
     os_ReadFile := read_file;
     mail_Address_String := address_string;
     gomail_DialAndSend := fun _ _ _ => None;
     mails_Welcome := plain_example "welcome";
     mails_Reset := plain_example "reset";
     mails_Receipt := plain_example "receipt" |}.

(** Nothing set: the program only renders. *)
Definition no_env (key : string) : string := "".

(** Everything set but the password. *)
Definition smtp_env (key : string) : string :=
  if String.eqb key "HERMES_SEND_EMAILS" then "true"
  else if String.eqb key "HERMES_SMTP_PORT" then "587"
  else if String.eqb key "HERMES_SMTP_USER" then "jon"
  else if String.eqb key "HERMES_SMTP_SERVER" then "smtp.example.com"
  else if String.eqb key "HERMES_SENDER_EMAIL" then "jon@example.com"
  else if String.eqb key "HERMES_SENDER_IDENTITY" then "Jon Snow"
  else if String.eqb key "HERMES_TO" then "arya@example.com"
  else "".

Definition start : pworld :=
  {| engine_world := Sample.empty_world; host_log := [] |}.

Definition smtp_config : smtpAuthentication :=
  {| Server := "smtp.example.com"; Port := 587; SenderEmail := "jon@example.com";
     SenderIdentity := "Jon Snow"; SMTPUser := "jon"; SMTPPassword := "" |}.

Definition smtp_options : sendOptions :=
  {| To := "arya@example.com"; Subject := "Hermes | default | invite_code" |}.

(** A theme the stand-in executor fails on after writing the greeting. *)
Definition static_theme : ThemeImpl :=
  {| Name := "static";
     HTMLTemplate := "<p>{{.Email.Body.Greeting}}</p>";
     PlainTextTemplate := "{{.Email.Body.Greeting}}";
     Theme_pointer := true;
     Theme_fields := [] |}.

(** A theme whose plain-text template alone does not parse. *)
Definition half_broken_theme : ThemeImpl :=
  {| Name := "half";
     HTMLTemplate := "<p>{{.Email.Body.Greeting}} {{.Email.Body.Name}}</p>";
     PlainTextTemplate := "{{nope .Email.Body.Name}}";
     Theme_pointer := true;
     Theme_fields := [] |}.

Definition engine_with (th : ThemeImpl) : Hermes :=
  {| Hermes_Theme := Some th; Brand := zeroBranding;
     Hermes_TextDirection := ""; DisableCSSInlining := false |}.

End SampleHost.

(** ** What the properties of the program are stated with *)

(** One of the two entry points of the engine. *)
Definition entry_point `{X : Externals} (html : bool)
  : Hermes -> Email -> M (Hermes * (string * option error)) :=
  if html then GenerateHTML else GeneratePlainText.

(** The error messages of the settings [send] finds missing, in the order
    it looks at them. *)
Definition missing_settings (c : Program.smtpAuthentication) (o : Program.sendOptions)
  : list error :=
  ((if String.eqb (Program.Server c) "" then ["SMTP server config is empty"] else []) ++
   (if Z.eqb (Program.Port c) 0 then ["SMTP port config is empty"] else []) ++
   (if String.eqb (Program.SMTPUser c) "" then ["SMTP user is empty"] else []) ++
   (if String.eqb (Program.SenderIdentity c) "" then ["SMTP sender identity is empty"] else []) ++
   (if String.eqb (Program.SenderEmail c) "" then ["SMTP sender email is empty"] else []) ++
   (if String.eqb (Program.To o) "" then ["no receiver emails configured"] else []))%list.

(** The world after more calls to the host were recorded. *)
Definition host_logged (pw : Program.pworld) (cs : list Program.host_call) : Program.pworld :=
  {| Program.engine_world := Program.engine_world pw;
     Program.host_log := (Program.host_log pw ++ cs)%list |}.

(** The calls that create a directory or write a file. *)
Definition is_fs_write (c : Program.host_call) : bool :=
  match c with
  | Program.call_os_MkdirAll _ _ => true
  | Program.call_os_WriteFile _ _ _ => true
  | _ => false
  end.

(** The names of the files written, and of the files read, in order. *)
Definition written_names (cs : list Program.host_call) : list string :=
  flat_map (fun c => match c with
                     | Program.call_os_WriteFile n _ _ => [n]
                     | _ => []
                     end) cs.

Definition read_names (cs : list Program.host_call) : list string :=
  flat_map (fun c => match c with
                     | Program.call_os_ReadFile n => [n]
                     | _ => []
                     end) cs.

(** The messages handed to the SMTP dialer, in order. *)
Definition dialled (cs : list Program.host_call) : list Program.Message :=
  flat_map (fun c => match c with
                     | Program.call_gomail_DialAndSend _ m => [m]
                     | _ => []
                     end) cs.

(** The two files of one example under one theme, HTML first. *)
Definition files_of (theme : string) (e : Program.example) : list string :=
  [Program.html_path theme (Program.example_Name e);
   Program.txt_path theme (Program.example_Name e)].

(** The files of every example under every theme, in the order of the
    loops. *)
Definition all_files (themes : list ThemeImpl) (examples : list Program.example)
  : list string :=
  flat_map (fun th => flat_map (files_of (Name th)) examples) themes.

(** The calls that touch neither a file nor the network. *)
Definition is_quiet (c : Program.host_call) : bool :=
  match c with
  | Program.call_os_Getenv _ => true
  | Program.call_fmt_Print _ => true
  | Program.call_term_ReadPassword _ => true
  | _ => false
  end.

(** A computation that, wherever it starts, only appends to the record of
    host calls, and, when it completes, has written the files [W], read the
    files [R] and dialled [D] messages. *)
Definition emits {A} (m : Program.P A) (W R : list string) (D : nat) : Prop :=
  forall pw, exists evs,
    Program.host_log (snd (m pw)) = (Program.host_log pw ++ evs)%list /\
    (forall a, fst (m pw) = Program.Done a ->
               written_names evs = W /\ read_names evs = R /\ length (dialled evs) = D).

(** The host's file system accepts every directory and every file. *)
Definition fs_accepts `{H : Program.Host} : Prop :=
  (forall log path perm, Program.os_MkdirAll log path perm = None) /\
  (forall log name data perm, Program.os_WriteFile log name data perm = None).

(** * Properties *)

(** ** Closed forms of the two merges *)

Lemma isEmptyString_false (s : string) : isEmptyString s = false <-> s <> "".
Proof. destruct s; cbn; split; congruence. Qed.

Lemma fill_empty (d : string) : fill d "" = d.
Proof. reflexivity. Qed.

Lemma fill_set (d v : string) : v <> "" -> fill d v = v.
Proof. intros Hv. unfold fill. apply isEmptyString_false in Hv. now rewrite Hv. Qed.

Lemma logged_logged (w : world) (a b : list call) :
  logged (logged w a) b = logged w (a ++ b)%list.
Proof. unfold logged; cbn. now rewrite app_assoc. Qed.

(** Rewriting rules for the boolean tests met while merging. *)
Lemma mustSet_empty_src (a : bool) : mustSet a true = false.
Proof. now destruct a. Qed.

Lemma mustSet_set_src (a : bool) : mustSet a false = a.
Proof. now destruct a. Qed.

Ltac run_merge :=
  unfold deepMerge, merge_Email, merge_Body, merge_Table, merge_Columns,
    merge_Hermes, merge_Branding, merge_Theme, merge_gomap, merge_slice,
    merge_bool, merge_string, bind, ret; cbn;
  rewrite ?mustSet_empty_src, ?mustSet_set_src.

Lemma deepMerge_defaultEmail (e : Email) (w : world) :
  deepMerge e defaultEmail w = (Some (Email_after_merge e), w).
Proof.
  destruct e as [[n i d [dat [cw ca]] a o g s t f]].
  run_merge. reflexivity.
Qed.

Lemma SetDefaultEmailValues_run (e : Email) (w : world) :
  SetDefaultEmailValues e w =
  (Some (Email_after_merge e, None), logged w [call_mergo_Merge_Email]).
Proof.
  unfold SetDefaultEmailValues, mergo_Merge, bind, emit, ret.
  now rewrite deepMerge_defaultEmail.
Qed.

Section Facts.

Context `{X : Externals}.

Lemma merge_fields_none (fs : list field) (w : world) :
  existsb field_exported fs = true ->
  merge_fields fs [] w = (None, panicking w field_index_out_of_range).
Proof. destruct fs as [|f fs]; [ discriminate | reflexivity ]. Qed.

(** The built-in theme is merged without a panic. *)
Lemma mergo_panics_default : mergo_panics (Some themes_Default) = false.
Proof.
  unfold mergo_panics, hasMergeableFields.
  now rewrite themes_Default_pointer, themes_Default_fields.
Qed.

Lemma mergo_panics_after_merge (h : Hermes) :
  mergo_panics (Hermes_Theme h) = false ->
  mergo_panics (Hermes_Theme (Hermes_after_merge h)) = false.
Proof.
  unfold Hermes_after_merge, selected_theme; cbn.
  destruct (Hermes_Theme h); [ trivial | intros _; apply mergo_panics_default ].
Qed.

Lemma deepMerge_Theme_default (t : Theme) (w : world) :
  deepMerge t (Some themes_Default) w =
  if mergo_panics t
  then (None, panicking w field_index_out_of_range)
  else (Some (Some (match t with Some d => d | None => themes_Default end)), w).
Proof.
  unfold deepMerge, merge_Theme, mergo_panics.
  destruct t as [d|]; [ | reflexivity ].
  rewrite themes_Default_pointer, themes_Default_fields.
  destruct (Theme_pointer d); cbn; [ | reflexivity ].
  destruct (hasMergeableFields d) eqn:Hm; [ | reflexivity ].
  unfold bind. now rewrite merge_fields_none.
Qed.

Lemma deepMerge_defaultHermes (h : Hermes) (w : world) :
  deepMerge h defaultHermes w =
  if mergo_panics (Hermes_Theme h)
  then (None, panicking w field_index_out_of_range)
  else (Some (Hermes_after_merge h), w).
Proof.
  destruct h as [t [n l g c tt] d dis].
  unfold deepMerge at 1, merge_Hermes, bind, defaultHermes; cbn [Hermes_Theme].
  rewrite deepMerge_Theme_default.
  destruct (mergo_panics t); [ reflexivity | ].
  run_merge; unfold Hermes_after_merge, selected_theme, fill; cbn.
  destruct dis; reflexivity.
Qed.

Lemma SetDefaultHermesValues_run (h : Hermes) (w : world) :
  mergo_panics (Hermes_Theme h) = false ->
  SetDefaultHermesValues h w =
  (Some (Hermes_after_merge h, None), logged w [call_mergo_Merge_Hermes]).
Proof.
  intros Hs. unfold SetDefaultHermesValues, mergo_Merge, bind, emit, ret.
  now rewrite deepMerge_defaultHermes, Hs.
Qed.

Lemma SetDefaultHermesValues_panics (h : Hermes) (w : world) :
  mergo_panics (Hermes_Theme h) = true ->
  SetDefaultHermesValues h w =
  (None, panicking (logged w [call_mergo_Merge_Hermes]) field_index_out_of_range).
Proof.
  intros Hs. unfold SetDefaultHermesValues, mergo_Merge, bind, emit, ret.
  now rewrite deepMerge_defaultHermes, Hs.
Qed.

(** The merge returns exactly on the themes it does not panic on. *)
Lemma SetDefaultHermesValues_returned (h : Hermes) (w w' : world)
    (r : Hermes * option error) :
  SetDefaultHermesValues h w = (Some r, w') ->
  mergo_panics (Hermes_Theme h) = false.
Proof.
  destruct (mergo_panics (Hermes_Theme h)) eqn:Hs; [ | reflexivity ].
  now rewrite SetDefaultHermesValues_panics.
Qed.

Lemma generateTemplate_run (h : Hermes) (email : Email) (tplt : string) (w : world) :
  generateTemplate h email tplt w =
  (Some (fst (render h email tplt (world_heap w))),
   logged w (snd (render h email tplt (world_heap w)))).
Proof.
  unfold generateTemplate, bind.
  rewrite SetDefaultEmailValues_run.
  unfold render, inline_css, Parse, Execute, NewPremailerFromString, Transform,
    bind, emit, ret, get_heap, logged; cbn.
  destruct (template_Parse hermesTemplate tplt) as [t [e|]]; cbn;
    [ now rewrite <- app_assoc | ].
  destruct (template_Execute t _ (world_heap w)) as [b [e|]]; cbn;
    [ now rewrite <- !app_assoc | ].
  destruct (DisableCSSInlining h); cbn; [ now rewrite <- !app_assoc | ].
  destruct (premailer_NewPremailerFromString b) as [prem [e|]]; cbn;
    [ now rewrite <- !app_assoc | ].
  destruct (premailer_Transform prem) as [html [e|]]; cbn;
    now rewrite <- !app_assoc.
Qed.

Lemma GenerateHTML_run (h : Hermes) (email : Email) (w : world) :
  mergo_panics (Hermes_Theme h) = false ->
  let h' := Hermes_after_merge h in
  let r := render h' email (HTMLTemplate (selected_theme h)) (world_heap w) in
  GenerateHTML h email w =
  (Some (h', fst r), logged w (call_mergo_Merge_Hermes :: snd r)).
Proof.
  intros Hs. cbn zeta. unfold GenerateHTML, bind.
  rewrite SetDefaultHermesValues_run by assumption. cbn -[generateTemplate].
  rewrite generateTemplate_run. cbn -[render].
  now rewrite logged_logged.
Qed.

Lemma GeneratePlainText_run (h : Hermes) (email : Email) (w : world) :
  mergo_panics (Hermes_Theme h) = false ->
  let h' := Hermes_after_merge h in
  let r := to_text (render h' email (PlainTextTemplate (selected_theme h)) (world_heap w)) in
  GeneratePlainText h email w =
  (Some (h', fst r), logged w (call_mergo_Merge_Hermes :: snd r)).
Proof.
  intros Hs. cbn zeta. unfold GeneratePlainText, bind.
  rewrite SetDefaultHermesValues_run by assumption. cbn -[generateTemplate].
  rewrite generateTemplate_run. cbn -[render].
  destruct (render _ email _ (world_heap w)) as [[s [e|]] cs]; cbn.
  - now rewrite logged_logged.
  - unfold FromString, bind, emit, ret; cbn.
    unfold logged; cbn. now rewrite <- !app_assoc.
Qed.

Lemma GenerateHTML_panics (h : Hermes) (email : Email) (w : world) :
  mergo_panics (Hermes_Theme h) = true ->
  GenerateHTML h email w =
  (None, panicking (logged w [call_mergo_Merge_Hermes]) field_index_out_of_range).
Proof.
  intros Hs. unfold GenerateHTML, bind.
  now rewrite SetDefaultHermesValues_panics.
Qed.

Lemma GeneratePlainText_panics (h : Hermes) (email : Email) (w : world) :
  mergo_panics (Hermes_Theme h) = true ->
  GeneratePlainText h email w =
  (None, panicking (logged w [call_mergo_Merge_Hermes]) field_index_out_of_range).
Proof.
  intros Hs. unfold GeneratePlainText, bind.
  now rewrite SetDefaultHermesValues_panics.
Qed.

End Facts.

(** ** The default merger *)

Lemma string_filled_fill (d v : string) : string_filled d v (fill d v).
Proof.
  split.
  - intros ->. apply fill_empty.
  - apply fill_set.
Qed.

Create HintDb merge.
#[local] Hint Resolve string_filled_fill : merge.

Lemma Email_after_merge_filled (e : Email) :
  Body_filled (Email_Body e) (Email_Body (Email_after_merge e)).
Proof.
  unfold Body_filled; cbn. repeat (split; auto with merge).
Qed.

Lemma fill_populated (d v : string) : isEmptyString v = false -> fill d v = v.
Proof. intros H. unfold fill. now rewrite H. Qed.

Lemma Email_populated_fixed (e : Email) :
  Email_populated e = true -> Email_after_merge e = e.
Proof.
  destruct e as [[n i d t a o g s ti f]]. unfold Email_populated, Email_after_merge; cbn.
  rewrite andb_true_iff, !negb_true_iff. intros [Hg Hs].
  now rewrite !fill_populated.
Qed.

Lemma Email_after_merge_populated (e : Email) :
  Email_populated (Email_after_merge e) = true.
Proof.
  destruct e as [[n i d t a o g s ti f]]. unfold Email_populated, Email_after_merge, fill; cbn.
  now destruct g, s.
Qed.

Section DefaultMerger.

Context `{X : Externals}.

Lemma Hermes_populated_fixed (h : Hermes) :
  Hermes_populated h = true -> Hermes_after_merge h = h.
Proof.
  destruct h as [[t|] [n l g c tt] d dis];
    unfold Hermes_populated, Hermes_after_merge, selected_theme; cbn;
    [ | discriminate ].
  destruct d, n, c, tt; cbn; intros H; try discriminate H; reflexivity.
Qed.

Lemma Hermes_fixed_populated (h : Hermes) :
  Hermes_after_merge h = h -> Hermes_populated h = true.
Proof.
  destruct h as [[t|] [n l g c tt] d dis];
    unfold Hermes_populated, Hermes_after_merge, selected_theme, fill; cbn;
    intros H; [ | discriminate ].
  injection H as Hn Hc Ht Hd.
  destruct n; [ discriminate | ].
  destruct c; [ discriminate | ].
  destruct tt; [ discriminate | ].
  destruct d; [ discriminate | ].
  reflexivity.
Qed.

Lemma Hermes_after_merge_populated (h : Hermes) :
  Hermes_populated (Hermes_after_merge h) = true.
Proof.
  destruct h as [t [n l g c tt] d dis].
  unfold Hermes_populated, Hermes_after_merge, fill; cbn.
  now destruct n, c, tt, d.
Qed.

Lemma Hermes_after_merge_filled (h : Hermes) :
  Hermes_filled themes_Default h (Hermes_after_merge h).
Proof.
  destruct h as [t b d dis].
  unfold Hermes_filled, theme_filled, selected_theme; cbn.
  repeat (split; auto with merge).
  - now intros ->.
  - destruct t; [ reflexivity | congruence ].
Qed.

(** C3, as the code has it.  [SetDefaultEmailValues] returns, without
    error, an e-mail in which an empty greeting is "Hi", an empty signature
    is "Yours truly", and every other field is the caller's: the intro,
    dictionary and outro slices are not touched, so a [nil] one stays [nil].
    [SetDefaultHermesValues], on an engine value whose theme the walk does
    not fail on, returns without error a value in which every empty field
    that has a default holds it (text direction "ltr", brand name "Hermes",
    the copyright and trouble-text boilerplate, the built-in theme) and every
    other field holds what the caller put there.  Neither writes to a map
    object. *)
Theorem default_merge_fills_only_empty_fields (e : Email) (h : Hermes) (w : world) :
  (exists e',
      SetDefaultEmailValues e w =
        (Some (e', None), logged w [call_mergo_Merge_Email]) /\
      Body_filled (Email_Body e) (Email_Body e')) /\
  (mergo_panics (Hermes_Theme h) = false ->
   exists h',
      SetDefaultHermesValues h w =
        (Some (h', None), logged w [call_mergo_Merge_Hermes]) /\
      Hermes_filled themes_Default h h').
Proof.
  split.
  - exists (Email_after_merge e).
    split; [ apply SetDefaultEmailValues_run | apply Email_after_merge_filled ].
  - intros Hs. exists (Hermes_after_merge h).
    split; [ now apply SetDefaultHermesValues_run | apply Hermes_after_merge_filled ].
Qed.

(** Idempotence where the merge returns: merging the defaults into a value
    that is already fully populated returns that very value, for every such
    e-mail, and for every such engine configuration whose theme the walk
    does not fail on. *)
Theorem default_merge_idempotent (e : Email) (h : Hermes) (w : world) :
  Email_populated e = true ->
  Hermes_populated h = true ->
  mergo_panics (Hermes_Theme h) = false ->
  SetDefaultEmailValues e w =
    (Some (e, None), logged w [call_mergo_Merge_Email]) /\
  SetDefaultHermesValues h w =
    (Some (h, None), logged w [call_mergo_Merge_Hermes]).
Proof.
  intros He Hh Hs. split.
  - rewrite SetDefaultEmailValues_run. now rewrite Email_populated_fixed.
  - rewrite SetDefaultHermesValues_run by assumption.
    now rewrite Hermes_populated_fixed.
Qed.

(** Merging twice is merging once, whatever the input. *)
Lemma default_merge_twice (e : Email) (h : Hermes) :
  Email_after_merge (Email_after_merge e) = Email_after_merge e /\
  Hermes_after_merge (Hermes_after_merge h) = Hermes_after_merge h.
Proof.
  split.
  - apply Email_populated_fixed, Email_after_merge_populated.
  - apply Hermes_populated_fixed, Hermes_after_merge_populated.
Qed.

End DefaultMerger.

(** C9. An e-mail whose greeting is the empty string comes out of
    [SetDefaultEmailValues] with the greeting "Hi", and one whose signature
    is the empty string with the signature "Yours truly": the field carries
    no mark of having been set, so an empty string the caller wrote is
    overwritten like a field left alone. *)
Theorem empty_greeting_and_signature_overwritten (e : Email) (w : world) :
  exists e',
    SetDefaultEmailValues e w =
      (Some (e', None), logged w [call_mergo_Merge_Email]) /\
    (Greeting (Email_Body e) = "" -> Greeting (Email_Body e') = "Hi") /\
    (Signature (Email_Body e) = "" -> Signature (Email_Body e') = "Yours truly").
Proof.
  exists (Email_after_merge e). split; [ apply SetDefaultEmailValues_run | ].
  cbn. split; intros ->; reflexivity.
Qed.

(** ** The engine facade *)

Section Facade.

Context `{X : Externals}.

(** Running a chain of stages whose first stage returns, unfolded. *)
Ltac run_stages :=
  unfold pipeline, run_stages, run_stage, bind, ret;
  rewrite SetDefaultHermesValues_run by assumption; cbn -[SetDefaultEmailValues];
  rewrite SetDefaultEmailValues_run;
  unfold Parse, Execute, NewPremailerFromString, Transform, FromString,
    bind, emit, ret, get_heap, logged; cbn.

Ltac run_facade :=
  unfold render, to_text, inline_css, logged; cbn.

(** A chain that starts with the merge of the engine defaults stops there
    when the merge panics. *)
Lemma pipeline_panics (l : list stage) (h : Hermes) (email : Email) (w : world) :
  mergo_panics (Hermes_Theme h) = true ->
  pipeline (MergeEngineDefaults :: l) h email w =
  (None, panicking (logged w [call_mergo_Merge_Hermes]) field_index_out_of_range).
Proof.
  intros Hs. unfold pipeline, bind; cbn [run_stages run_stage ps_config].
  unfold bind. now rewrite SetDefaultHermesValues_panics.
Qed.

Lemma spec_GenerateHTML_run (h : Hermes) (email : Email) (w : world) :
  mergo_panics (Hermes_Theme h) = false ->
  let h' := Hermes_after_merge h in
  let r := render h' email (HTMLTemplate (selected_theme h)) (world_heap w) in
  spec_GenerateHTML h email w =
  (Some (h', fst r), logged w (call_mergo_Merge_Hermes :: snd r)).
Proof.
  intros Hs. cbn zeta. unfold spec_GenerateHTML. run_stages. run_facade.
  destruct (template_Parse hermesTemplate _) as [t [e|]]; cbn;
    [ now rewrite <- !app_assoc | ].
  destruct (template_Execute t _ (world_heap w)) as [b [e|]]; cbn;
    [ now rewrite <- !app_assoc | ].
  destruct (DisableCSSInlining h); cbn; [ now rewrite <- !app_assoc | ].
  destruct (premailer_NewPremailerFromString b) as [prem [e|]]; cbn;
    [ now rewrite <- !app_assoc | ].
  destruct (premailer_Transform prem) as [html [e|]]; cbn;
    now rewrite <- !app_assoc.
Qed.

Lemma inlining_GeneratePlainText_run (h : Hermes) (email : Email) (w : world) :
  mergo_panics (Hermes_Theme h) = false ->
  let h' := Hermes_after_merge h in
  let r := to_text (render h' email (PlainTextTemplate (selected_theme h)) (world_heap w)) in
  inlining_GeneratePlainText h email w =
  (Some (h', fst r), logged w (call_mergo_Merge_Hermes :: snd r)).
Proof.
  intros Hs. cbn zeta. unfold inlining_GeneratePlainText. run_stages. run_facade.
  destruct (template_Parse hermesTemplate _) as [t [e|]]; cbn;
    [ now rewrite <- !app_assoc | ].
  destruct (template_Execute t _ (world_heap w)) as [b [e|]]; cbn;
    [ now rewrite <- !app_assoc | ].
  destruct (DisableCSSInlining h); cbn.
  { destruct (html2text_FromString b _) as [text err]; cbn.
    rewrite <- !app_assoc; cbn. now destruct err. }
  destruct (premailer_NewPremailerFromString b) as [prem [e|]]; cbn;
    [ now rewrite <- !app_assoc | ].
  destruct (premailer_Transform prem) as [html [e|]]; cbn;
    [ now rewrite <- !app_assoc | ].
  destruct (html2text_FromString html _) as [text err]; cbn.
  rewrite <- !app_assoc; cbn. now destruct err.
Qed.

(** The plain-text chain of the specification, run with inlining switched
    off. *)
Lemma spec_GeneratePlainText_run (h : Hermes) (email : Email) (w : world) :
  mergo_panics (Hermes_Theme h) = false ->
  DisableCSSInlining h = true ->
  let h' := Hermes_after_merge h in
  let r := to_text (render h' email (PlainTextTemplate (selected_theme h)) (world_heap w)) in
  spec_GeneratePlainText h email w =
  (Some (h', fst r), logged w (call_mergo_Merge_Hermes :: snd r)).
Proof.
  intros Hs Hd. cbn zeta. unfold spec_GeneratePlainText. run_stages. run_facade.
  rewrite Hd.
  destruct (template_Parse hermesTemplate _) as [t [e|]]; cbn;
    [ now rewrite <- !app_assoc | ].
  destruct (template_Execute t _ (world_heap w)) as [b [e|]]; cbn;
    [ now rewrite <- !app_assoc | ].
  destruct (html2text_FromString b _) as [text err]; cbn.
  rewrite <- !app_assoc; cbn. now destruct err.
Qed.

(** C1, as the code has it.  [GeneratePlainText] is the chain: merge the
    engine defaults, merge the e-mail defaults, render the plain-text
    template, inline the CSS unless [DisableCSSInlining] is set, convert to
    plain text, return.  The CSS step is the one the HTML path runs; the
    plain-text path is the chain without it when the flag is set. *)
Theorem GeneratePlainText_stages (h : Hermes) (email : Email) (w : world) :
  GeneratePlainText h email w = inlining_GeneratePlainText h email w /\
  GenerateHTML h email w = spec_GenerateHTML h email w /\
  (DisableCSSInlining h = true ->
   GeneratePlainText h email w = spec_GeneratePlainText h email w).
Proof.
  destruct (mergo_panics (Hermes_Theme h)) eqn:Hs.
  - unfold inlining_GeneratePlainText, spec_GenerateHTML, spec_GeneratePlainText.
    rewrite GeneratePlainText_panics, GenerateHTML_panics, !pipeline_panics
      by assumption.
    now repeat split.
  - split; [ | split ].
    + now rewrite GeneratePlainText_run, inlining_GeneratePlainText_run.
    + now rewrite GenerateHTML_run, spec_GenerateHTML_run.
    + intros Hd. now rewrite GeneratePlainText_run, spec_GeneratePlainText_run.
Qed.

(** A call made on a frame, in closed form. *)
Lemma at_call_site_GenerateHTML_run (f : frame) (w : world) :
  mergo_panics (Hermes_Theme (var_h f)) = false ->
  let h' := Hermes_after_merge (var_h f) in
  let r := render h' (var_email f) (HTMLTemplate (selected_theme (var_h f))) (world_heap w) in
  at_call_site GenerateHTML f w =
  (Some ({| var_h := h'; var_email := var_email f |}, fst r),
   logged w (call_mergo_Merge_Hermes :: snd r)).
Proof.
  intros Hs. cbn zeta. unfold at_call_site, bind.
  now rewrite GenerateHTML_run.
Qed.

Lemma at_call_site_GeneratePlainText_run (f : frame) (w : world) :
  mergo_panics (Hermes_Theme (var_h f)) = false ->
  let h' := Hermes_after_merge (var_h f) in
  let r := to_text (render h' (var_email f) (PlainTextTemplate (selected_theme (var_h f)))
                      (world_heap w)) in
  at_call_site GeneratePlainText f w =
  (Some ({| var_h := h'; var_email := var_email f |}, fst r),
   logged w (call_mergo_Merge_Hermes :: snd r)).
Proof.
  intros Hs. cbn zeta. unfold at_call_site, bind.
  now rewrite GeneratePlainText_run.
Qed.

Lemma at_call_site_panics (f : frame) (w : world) :
  mergo_panics (Hermes_Theme (var_h f)) = true ->
  at_call_site GenerateHTML f w =
    (None, panicking (logged w [call_mergo_Merge_Hermes]) field_index_out_of_range) /\
  at_call_site GeneratePlainText f w =
    (None, panicking (logged w [call_mergo_Merge_Hermes]) field_index_out_of_range).
Proof.
  intros Hs. unfold at_call_site, bind.
  now rewrite GenerateHTML_panics, GeneratePlainText_panics.
Qed.

(** C2, as the code has it.  The receiver of both entry points is a pointer
    and the engine defaults are merged into it in place: when the merge does
    not fail on the theme, [h.GenerateHTML(email)] and
    [h.GeneratePlainText(email)] return, and the caller's engine value is
    then the default-merged one, in which every field the caller had set is
    unchanged and every empty field with a default holds it.  It is the value
    the caller passed exactly when that one was fully populated.  Nothing
    else is kept from the call: the heap is as before. *)
Theorem engine_value_after_call (f : frame) (w : world) :
  mergo_panics (Hermes_Theme (var_h f)) = false ->
  exists h' r1 cs1 r2 cs2,
    SetDefaultHermesValues (var_h f) w =
      (Some (h', None), logged w [call_mergo_Merge_Hermes]) /\
    at_call_site GenerateHTML f w =
      (Some ({| var_h := h'; var_email := var_email f |}, r1), logged w cs1) /\
    at_call_site GeneratePlainText f w =
      (Some ({| var_h := h'; var_email := var_email f |}, r2), logged w cs2) /\
    Hermes_filled themes_Default (var_h f) h' /\
    (h' = var_h f <-> Hermes_populated (var_h f) = true).
Proof.
  intros Hs.
  exists (Hermes_after_merge (var_h f)).
  rewrite at_call_site_GenerateHTML_run, at_call_site_GeneratePlainText_run
    by assumption; cbn zeta.
  do 4 eexists.
  split; [ now apply SetDefaultHermesValues_run | ].
  split; [ reflexivity | ].
  split; [ reflexivity | ].
  split; [ apply Hermes_after_merge_filled | ].
  split; [ apply Hermes_fixed_populated | apply Hermes_populated_fixed ].
Qed.

(** C10. The e-mail is passed by value, and what the callee's copy still
    shares with the caller's variable, the map objects, is not written to:
    the merge of the e-mail defaults runs against a table without maps, and
    leaves every map object as it is.  However [h.GenerateHTML(email)] or
    [h.GeneratePlainText(email)] ends, every map object holds what it held;
    when the call returns, the caller's [Email] variable holds what it held;
    and the call returns whenever the merge of the engine defaults does. *)
Theorem email_value_after_call (f : frame) (w : world) :
  world_heap (snd (SetDefaultEmailValues (var_email f) w)) = world_heap w /\
  world_heap (snd (at_call_site GenerateHTML f w)) = world_heap w /\
  world_heap (snd (at_call_site GeneratePlainText f w)) = world_heap w /\
  (forall f' r w',
      at_call_site GenerateHTML f w = (Some (f', r), w') ->
      var_email f' = var_email f) /\
  (forall f' r w',
      at_call_site GeneratePlainText f w = (Some (f', r), w') ->
      var_email f' = var_email f) /\
  (forall h' w',
      SetDefaultHermesValues (var_h f) w = (Some (h', None), w') ->
      (exists f' r w'', at_call_site GenerateHTML f w = (Some (f', r), w'')) /\
      (exists f' r w'', at_call_site GeneratePlainText f w = (Some (f', r), w''))).
Proof.
  split; [ now rewrite SetDefaultEmailValues_run | ].
  destruct (mergo_panics (Hermes_Theme (var_h f))) eqn:Hs.
  - destruct (at_call_site_panics f w Hs) as [-> ->].
    split; [ reflexivity | ].
    split; [ reflexivity | ].
    split; [ discriminate | ].
    split; [ discriminate | ].
    intros h' w' H. now rewrite SetDefaultHermesValues_panics in H.
  - rewrite at_call_site_GenerateHTML_run, at_call_site_GeneratePlainText_run
      by assumption; cbn zeta.
    split; [ reflexivity | ].
    split; [ reflexivity | ].
    split; [ intros f' r w' H; now inversion H | ].
    split; [ intros f' r w' H; now inversion H | ].
    intros _ _ _. split; do 3 eexists; reflexivity.
Qed.

Lemma render_no_inliner_call (h : Hermes) (email : Email) (tplt : string) (σ : heap) :
  DisableCSSInlining h = true ->
  forallb (fun c => negb (is_inliner_call c)) (snd (render h email tplt σ)) = true.
Proof.
  intros Hd. unfold render. rewrite Hd.
  destruct (template_Parse hermesTemplate tplt) as [t [e|]]; [ reflexivity | ].
  destruct (template_Execute t _ σ) as [b [e|]]; reflexivity.
Qed.

Lemma render_passthrough (h : Hermes) (email : Email) (tplt : string) (σ : heap)
    (s : string) :
  DisableCSSInlining h = true ->
  fst (render h email tplt σ) = (s, None) ->
  exists t,
    template_Parse hermesTemplate tplt = (t, None) /\
    template_Execute t {| Template_Hermes := h;
                          Template_Email := Email_after_merge email |} σ = (s, None).
Proof.
  intros Hd. unfold render. rewrite Hd.
  destruct (template_Parse hermesTemplate tplt) as [t [e|]] eqn:Hp; cbn;
    [ discriminate | ].
  destruct (template_Execute t _ σ) as [b [e|]] eqn:He; cbn; [ discriminate | ].
  intros H. inversion H; subst. now exists t.
Qed.

(** C5. With [DisableCSSInlining] set, [GenerateHTML] makes no call to the
    CSS inliner, however the call ends.  Every string it returns without an
    error is the buffer that executing the theme's HTML template on the two
    merged values filled; and when the merge of the engine defaults returns
    and that template parses and executes, the call returns the buffer, with
    no error.  This holds whatever the inliner would have answered on that
    buffer. *)
Theorem css_inlining_disabled_passthrough (h : Hermes) (email : Email) (w : world) :
  DisableCSSInlining h = true ->
  (exists cs,
      world_log (snd (GenerateHTML h email w)) = (world_log w ++ cs)%list /\
      forallb (fun c => negb (is_inliner_call c)) cs = true) /\
  (forall h' s w',
      GenerateHTML h email w = (Some (h', (s, None)), w') ->
      exists email' th t,
        SetDefaultHermesValues h w =
          (Some (h', None), logged w [call_mergo_Merge_Hermes]) /\
        SetDefaultEmailValues email w =
          (Some (email', None), logged w [call_mergo_Merge_Email]) /\
        Hermes_Theme h' = Some th /\
        template_Parse hermesTemplate (HTMLTemplate th) = (t, None) /\
        template_Execute t {| Template_Hermes := h'; Template_Email := email' |}
          (world_heap w) = (s, None)) /\
  (forall h' email' th t b,
      SetDefaultHermesValues h w =
        (Some (h', None), logged w [call_mergo_Merge_Hermes]) ->
      SetDefaultEmailValues email w =
        (Some (email', None), logged w [call_mergo_Merge_Email]) ->
      Hermes_Theme h' = Some th ->
      template_Parse hermesTemplate (HTMLTemplate th) = (t, None) ->
      template_Execute t {| Template_Hermes := h'; Template_Email := email' |}
        (world_heap w) = (b, None) ->
      exists cs, GenerateHTML h email w = (Some (h', (b, None)), logged w cs)).
Proof.
  intros Hd.
  destruct (mergo_panics (Hermes_Theme h)) eqn:Hs.
  - rewrite GenerateHTML_panics by assumption.
    split; [ exists [call_mergo_Merge_Hermes]; split; reflexivity | ].
    split; [ discriminate | ].
    intros h' email' th t b H. now rewrite SetDefaultHermesValues_panics in H.
  - rewrite GenerateHTML_run by assumption; cbn zeta.
    rewrite SetDefaultHermesValues_run, SetDefaultEmailValues_run by assumption.
    split; [ | split ].
    + eexists. split; [ reflexivity | ].
      cbn [forallb is_inliner_call negb andb].
      now apply render_no_inliner_call.
    + intros h' s w' H. injection H as Hh Hr Hw. subst h'.
      apply render_passthrough in Hr as (t & Hp & He); [ | exact Hd ].
      exists (Email_after_merge email), (selected_theme h), t.
      repeat split; assumption.
    + intros h' email' th t b Hh He Hth Hp Hx.
      inversion Hh; subst h'. inversion He; subst email'.
      cbn in Hth; inversion Hth; subst th.
      eexists. unfold render. rewrite Hp, Hx. cbn [DisableCSSInlining Hermes_after_merge].
      rewrite Hd. reflexivity.
Qed.



(** Syntax errors where the merge returns.  On an engine value whose theme
    the merge of the engine defaults does not fail on: when the template text
    of the theme the engine renders with does not parse, the call that
    renders it returns the parser's error and the empty string,
    [GenerateHTML] for the HTML template and [GeneratePlainText] for the
    plain-text one.  The parser is first called during that call, after the
    two merges; building the theme or the engine value calls nothing. *)
Theorem template_syntax_error_at_render_time
    (h : Hermes) (email : Email) (w : world) (t : parsed) (e : error) :
  mergo_panics (Hermes_Theme h) = false ->
  (template_Parse hermesTemplate (HTMLTemplate (selected_theme h)) = (t, Some e) ->
   exists h',
     GenerateHTML h email w =
       (Some (h', ("", Some e)),
        logged w [call_mergo_Merge_Hermes; call_mergo_Merge_Email;
                  call_template_Parse (HTMLTemplate (selected_theme h))])) /\
  (template_Parse hermesTemplate (PlainTextTemplate (selected_theme h)) = (t, Some e) ->
   exists h',
     GeneratePlainText h email w =
       (Some (h', ("", Some e)),
        logged w [call_mergo_Merge_Hermes; call_mergo_Merge_Email;
                  call_template_Parse (PlainTextTemplate (selected_theme h))])).
Proof.
  intros Hs. split; intros Hp; eexists.
  - rewrite GenerateHTML_run by assumption; cbn zeta. unfold render. now rewrite Hp.
  - rewrite GeneratePlainText_run by assumption; cbn zeta. unfold render. now rewrite Hp.
Qed.

End Facade.

(** ** The Markdown renderer *)

(** Over a library that is a function, the method is the composition of the
    two conversions with it. *)
Lemma ToHTML_fun_spec (run : list byte -> list byte) (c : Markdown) (out : HTML) :
  MarkdownRenderer.ToHTML (fun i o => o = run i) c out <->
  out = MarkdownRenderer.ToHTML_fun run c.
Proof.
  split.
  - intros [o ->]. reflexivity.
  - intros ->. now constructor.
Qed.

Example ToHTML_fun_paragraph :
  MarkdownRenderer.ToHTML_fun Sample.paragraph "_Hermes_ service" = "<p>_Hermes_ service</p>".
Proof. reflexivity. Qed.

(** ** Runs on the stand-ins *)

(** C1, refuted as stated: on the engine value and the invite-code e-mail
    of the example program, [GeneratePlainText] calls the CSS inliner
    between rendering and conversion, and returns the text of the inlined
    document, not the one the chain without the CSS step returns. *)
Lemma GeneratePlainText_inlines_css :
  world_log (snd (GeneratePlainText (X := Sample.externals)
                    Sample.example_engine Sample.invite_code Sample.empty_world)) =
    [call_mergo_Merge_Hermes; call_mergo_Merge_Email;
     call_template_Parse "{{.Email.Body.Greeting}} {{.Email.Body.Name}}";
     call_template_Execute;
     call_premailer_NewPremailerFromString "Hi Jon Snow, Yours truly";
     call_premailer_Transform;
     call_html2text_FromString "<html>Hi Jon Snow, Yours truly</html>"] /\
  world_log (snd (spec_GeneratePlainText (X := Sample.externals)
                    Sample.example_engine Sample.invite_code Sample.empty_world)) =
    [call_mergo_Merge_Hermes; call_mergo_Merge_Email;
     call_template_Parse "{{.Email.Body.Greeting}} {{.Email.Body.Name}}";
     call_template_Execute;
     call_html2text_FromString "Hi Jon Snow, Yours truly"] /\
  GeneratePlainText (X := Sample.externals)
    Sample.example_engine Sample.invite_code Sample.empty_world <>
  spec_GeneratePlainText (X := Sample.externals)
    Sample.example_engine Sample.invite_code Sample.empty_world.
Proof.
  split; [ vm_compute; reflexivity | ].
  split; [ vm_compute; reflexivity | ].
  vm_compute. intros H. discriminate H.
Qed.

Lemma GeneratePlainText_stages_witness :
  DisableCSSInlining Sample.no_inlining_engine = true /\
  GeneratePlainText (X := Sample.externals)
    Sample.no_inlining_engine Sample.invite_code Sample.empty_world =
  spec_GeneratePlainText (X := Sample.externals)
    Sample.no_inlining_engine Sample.invite_code Sample.empty_world.
Proof.
  split; [ reflexivity | ].
  apply (GeneratePlainText_stages (X := Sample.externals)).
  reflexivity.
Defined.

(** C2, refuted as stated: the engine value of the example program has no
    text direction; after [h.GenerateHTML(email)] its text direction is
    "ltr", and the value is not the one passed in.  And on an engine value
    whose theme is a pointer to a struct with an exported field, the call
    does not come back: the merge panics. *)
Lemma engine_value_changed_by_call :
  (exists f r w,
      at_call_site (GenerateHTML (X := Sample.externals)) Sample.example_frame
        Sample.empty_world = (Some (f, r), w) /\
      Hermes_TextDirection (var_h Sample.example_frame) = "" /\
      Hermes_TextDirection (var_h f) = "ltr" /\
      var_h f <> var_h Sample.example_frame) /\
  at_call_site (GenerateHTML (X := Sample.externals)) Sample.accent_frame
    Sample.empty_world =
  (None,
   {| world_heap := ∅; world_log := [call_mergo_Merge_Hermes];
      world_panic := Some "reflect: Field index out of range" |}).
Proof.
  split; [ | vm_compute; reflexivity ].
  do 3 eexists.
  split; [ vm_compute; reflexivity | ].
  split; [ reflexivity | ].
  split; [ reflexivity | ].
  cbn. intros H. discriminate H.
Qed.

Lemma engine_value_after_call_witness :
  mergo_panics (Hermes_Theme Sample.complete_engine) = false /\
  Hermes_populated Sample.complete_engine = true /\
  exists r cs,
    at_call_site (GenerateHTML (X := Sample.externals))
      {| var_h := Sample.complete_engine; var_email := Sample.invite_code |} Sample.empty_world =
    (Some ({| var_h := Sample.complete_engine; var_email := Sample.invite_code |}, r),
     logged Sample.empty_world cs).
Proof.
  split; [ reflexivity | ].
  split; [ reflexivity | ].
  destruct (engine_value_after_call (X := Sample.externals)
              {| var_h := Sample.complete_engine; var_email := Sample.invite_code |}
              Sample.empty_world eq_refl)
    as (h' & r1 & cs1 & r2 & cs2 & _ & H1 & _ & _ & Hfix).
  exists r1, cs1.
  assert (h' = Sample.complete_engine) as Hh by (apply Hfix; reflexivity).
  rewrite Hh in H1. exact H1.
Defined.

(** C3, refuted as stated.  The e-mail with nothing set comes back with its
    intro slice still [nil], not the empty slice of the default table; and
    on an engine value whose theme is a pointer to a struct with an exported
    field the merge of the engine defaults produces no value: it panics on
    the first field of that struct. *)
Lemma default_merge_keeps_nil_and_may_panic :
  (exists e',
      SetDefaultEmailValues zeroEmail Sample.empty_world =
        (Some (e', None), logged Sample.empty_world [call_mergo_Merge_Email]) /\
      Intros (Email_Body defaultEmail) = mk_slice [] /\
      Intros (Email_Body e') = nil_slice /\
      Intros (Email_Body e') <> Intros (Email_Body defaultEmail)) /\
  SetDefaultHermesValues (X := Sample.externals) Sample.accent_engine Sample.empty_world =
  (None,
   {| world_heap := ∅; world_log := [call_mergo_Merge_Hermes];
      world_panic := Some "reflect: Field index out of range" |}).
Proof.
  split; [ | vm_compute; reflexivity ].
  eexists.
  split; [ vm_compute; reflexivity | ].
  split; [ reflexivity | ].
  split; [ reflexivity | ].
  cbn. intros H. discriminate H.
Qed.

(** The defaults on the values of the example program: the e-mail has no
    greeting and no signature but has intros; the engine has a brand name
    but neither copyright nor text direction. *)
Lemma default_merge_fills_only_empty_fields_witness :
  mergo_panics (Hermes_Theme Sample.example_engine) = false /\
  exists e' h',
    SetDefaultEmailValues Sample.invite_code Sample.empty_world =
      (Some (e', None), logged Sample.empty_world [call_mergo_Merge_Email]) /\
    SetDefaultHermesValues (X := Sample.externals) Sample.example_engine Sample.empty_world =
      (Some (h', None), logged Sample.empty_world [call_mergo_Merge_Hermes]) /\
    Greeting (Email_Body e') = "Hi" /\
    Signature (Email_Body e') = "Yours truly" /\
    Intros (Email_Body e') = Intros (Email_Body Sample.invite_code) /\
    Dictionary (Email_Body e') = nil_slice /\
    Hermes_TextDirection h' = "ltr" /\
    Brand_Name (Brand h') = "Hermes" /\
    Link (Brand h') = "https://example-hermes.com/" /\
    Copyright (Brand h') = "Copyright © 2024 Hermes. All rights reserved.".
Proof.
  split; [ reflexivity | ].
  destruct (default_merge_fills_only_empty_fields (X := Sample.externals)
              Sample.invite_code Sample.example_engine Sample.empty_world)
    as [(e' & He & Hg & Hs & Hi & Hd & _) Hengine].
  destruct (Hengine eq_refl) as (h' & Hh & _ & Hdir & Hn & Hc & _ & Hl & _).
  exists e', h'.
  split; [ exact He | ].
  split; [ exact Hh | ].
  split; [ apply Hg; reflexivity | ].
  split; [ apply Hs; reflexivity | ].
  split; [ exact Hi | ].
  split; [ exact Hd | ].
  split; [ apply Hdir; reflexivity | ].
  split; [ apply Hn; discriminate | ].
  split; [ exact Hl | ].
  apply Hc; reflexivity.
Defined.

(** C4.  An engine value with every field set, whose theme is a pointer to
    a struct with an exported field: a theme as the [Theme] interface invites
    callers to write.  Merging the defaults into it should change nothing;
    the walk instead follows the two theme pointers, asks the built-in
    theme's struct, which has no field, for field 0, and panics. *)
Lemma populated_engine_merge_panics :
  Hermes_populated (Sample.populated_engine Sample.accent_theme false) = true /\
  SetDefaultHermesValues (X := Sample.externals)
    (Sample.populated_engine Sample.accent_theme false) Sample.empty_world =
  (None,
   {| world_heap := ∅; world_log := [call_mergo_Merge_Hermes];
      world_panic := Some "reflect: Field index out of range" |}).
Proof. split; [ reflexivity | vm_compute; reflexivity ]. Qed.

Lemma default_merge_idempotent_witness :
  Email_populated Sample.complete_email = true /\
  Hermes_populated Sample.complete_engine = true /\
  mergo_panics (Hermes_Theme Sample.complete_engine) = false /\
  SetDefaultEmailValues Sample.complete_email Sample.empty_world =
    (Some (Sample.complete_email, None), logged Sample.empty_world [call_mergo_Merge_Email]) /\
  SetDefaultHermesValues (X := Sample.externals) Sample.complete_engine Sample.empty_world =
    (Some (Sample.complete_engine, None), logged Sample.empty_world [call_mergo_Merge_Hermes]).
Proof.
  split; [ reflexivity | ].
  split; [ reflexivity | ].
  split; [ reflexivity | ].
  apply (default_merge_idempotent (X := Sample.externals)); reflexivity.
Defined.

(** The same struct used by value, not through a pointer, is of another
    kind than the built-in theme and is left alone. *)
Example value_theme_is_not_walked :
  Hermes_populated (Sample.populated_engine Sample.accent_value_theme false) = true /\
  fst (SetDefaultHermesValues (X := Sample.externals)
         (Sample.populated_engine Sample.accent_value_theme false) Sample.empty_world) =
  Some (Sample.populated_engine Sample.accent_value_theme false, None).
Proof. split; [ reflexivity | vm_compute; reflexivity ]. Qed.

Lemma empty_greeting_and_signature_overwritten_witness :
  Greeting (Email_Body Sample.invite_code) = "" /\
  Signature (Email_Body Sample.invite_code) = "" /\
  exists e',
    SetDefaultEmailValues Sample.invite_code Sample.empty_world =
      (Some (e', None), logged Sample.empty_world [call_mergo_Merge_Email]) /\
    Greeting (Email_Body e') = "Hi" /\
    Signature (Email_Body e') = "Yours truly".
Proof.
  split; [ reflexivity | ].
  split; [ reflexivity | ].
  destruct (empty_greeting_and_signature_overwritten Sample.invite_code Sample.empty_world)
    as (e' & Hrun & Hg & Hs).
  exists e'. split; [ exact Hrun | ].
  split; [ apply Hg | apply Hs ]; reflexivity.
Defined.

(** The inliner of [Sample.failing_inliner] rejects every document; with
    the flag set it is not asked, and the call returns the buffer. *)
Lemma css_inlining_disabled_passthrough_witness :
  DisableCSSInlining Sample.no_inlining_engine = true /\
  premailer_NewPremailerFromString (Externals := Sample.failing_inliner)
    "Hi Jon Snow, Yours truly" = ("", Some "premailer: malformed style") /\
  exists cs,
    GenerateHTML (X := Sample.failing_inliner) Sample.no_inlining_engine Sample.invite_code
      Sample.empty_world =
    (Some (Hermes_after_merge (X := Sample.failing_inliner) Sample.no_inlining_engine,
           ("Hi Jon Snow, Yours truly", None)),
     logged Sample.empty_world cs).
Proof.
  split; [ reflexivity | ].
  split; [ reflexivity | ].
  refine (proj2 (proj2 (css_inlining_disabled_passthrough (X := Sample.failing_inliner)
                          Sample.no_inlining_engine Sample.invite_code Sample.empty_world
                          eq_refl))
            (Hermes_after_merge (X := Sample.failing_inliner) Sample.no_inlining_engine)
            (Email_after_merge Sample.invite_code)
            Sample.theme
            "<p>{{.Email.Body.Greeting}} {{.Email.Body.Name}}</p>"
            "Hi Jon Snow, Yours truly" _ _ _ _ _);
    vm_compute; reflexivity.
Defined.

Example GenerateHTML_without_inlining :
  fst (GenerateHTML (X := Sample.failing_inliner) Sample.no_inlining_engine Sample.invite_code
         Sample.empty_world) =
  Some (Hermes_after_merge (X := Sample.failing_inliner) Sample.no_inlining_engine,
        ("Hi Jon Snow, Yours truly", None)).
Proof. vm_compute. reflexivity. Qed.

Example GenerateHTML_with_failing_inliner :
  fst (GenerateHTML (X := Sample.failing_inliner) Sample.example_engine Sample.invite_code
         Sample.empty_world) =
  Some (Hermes_after_merge (X := Sample.failing_inliner) Sample.example_engine,
        ("", Some "premailer: malformed style")).
Proof. vm_compute. reflexivity. Qed.



(** C7.  A theme whose templates do not parse and whose struct, held
    through a pointer, has an exported field.  Neither entry point returns
    the parser's error: the merge of the engine defaults panics before the
    parser is called. *)
Lemma unparsable_theme_panics_before_parsing :
  template_Parse (Externals := Sample.externals)
    (hermesTemplate (X := Sample.externals)) (HTMLTemplate Sample.accent_broken_theme) =
    ("", Some "template: hermes:1: function nope not defined") /\
  template_Parse (Externals := Sample.externals)
    (hermesTemplate (X := Sample.externals)) (PlainTextTemplate Sample.accent_broken_theme) =
    ("", Some "template: hermes:1: function nope not defined") /\
  GenerateHTML (X := Sample.externals)
    (Sample.populated_engine Sample.accent_broken_theme false) Sample.invite_code
    Sample.empty_world =
  (None,
   {| world_heap := ∅; world_log := [call_mergo_Merge_Hermes];
      world_panic := Some "reflect: Field index out of range" |}) /\
  GeneratePlainText (X := Sample.externals)
    (Sample.populated_engine Sample.accent_broken_theme false) Sample.invite_code
    Sample.empty_world =
  (None,
   {| world_heap := ∅; world_log := [call_mergo_Merge_Hermes];
      world_panic := Some "reflect: Field index out of range" |}).
Proof.
  split; [ reflexivity | ].
  split; [ reflexivity | ].
  split; vm_compute; reflexivity.
Qed.

Lemma template_syntax_error_at_render_time_witness :
  mergo_panics (Hermes_Theme Sample.broken_engine) = false /\
  template_Parse (Externals := Sample.externals)
    (hermesTemplate (X := Sample.externals)) (HTMLTemplate Sample.broken_theme) =
    ("", Some "template: hermes:1: function nope not defined") /\
  exists h',
    GenerateHTML (X := Sample.externals) Sample.broken_engine Sample.invite_code
      Sample.empty_world =
    (Some (h', ("", Some "template: hermes:1: function nope not defined")),
     logged Sample.empty_world
       [call_mergo_Merge_Hermes; call_mergo_Merge_Email;
        call_template_Parse "<p>{{nope .Email.Body.Name}}</p>"]).
Proof.
  split; [ reflexivity | ].
  split; [ reflexivity | ].
  apply (template_syntax_error_at_render_time (X := Sample.externals)
           Sample.broken_engine Sample.invite_code Sample.empty_world ""
           "template: hermes:1: function nope not defined" eq_refl).
  reflexivity.
Defined.

(** On the frame of the example program both calls return, the heap and the
    e-mail variable as they were, while the string returned was rendered
    from the merged copy. *)
Lemma email_value_after_call_witness :
  exists f' w',
    at_call_site (GenerateHTML (X := Sample.externals)) Sample.example_frame
      Sample.empty_world =
      (Some (f', ("<html>Hi Jon Snow, Yours truly</html>", None)), w') /\
    var_email f' = Sample.invite_code /\
    Greeting (Email_Body (var_email f')) = "".
Proof.
  assert (exists f' w',
             at_call_site (GenerateHTML (X := Sample.externals)) Sample.example_frame
               Sample.empty_world =
             (Some (f', ("<html>Hi Jon Snow, Yours truly</html>", None)), w'))
    as (f' & w' & Hrun) by (do 2 eexists; vm_compute; reflexivity).
  exists f', w'.
  split; [ exact Hrun | ].
  pose proof (proj1 (proj2 (proj2 (proj2 (email_value_after_call (X := Sample.externals)
                                            Sample.example_frame Sample.empty_world))))
                _ _ _ Hrun) as He.
  split; [ exact He | ].
  now rewrite He.
Defined.

(** The callee's copy of the e-mail is the merged one: it is what the
    template is executed on, while the caller's variable keeps the empty
    greeting. *)
Example callee_copy_is_merged :
  fst (GenerateHTML (X := Sample.externals) Sample.example_engine Sample.invite_code
         Sample.empty_world) =
  Some (Hermes_after_merge (X := Sample.externals) Sample.example_engine,
        ("<html>Hi Jon Snow, Yours truly</html>", None)) /\
  Greeting (Email_Body Sample.invite_code) = "".
Proof. split; [ vm_compute; reflexivity | reflexivity ]. Qed.

(** The merge of a map does write through the reference when the source
    has keys: a destination sharing the map object sees the new entries.
    The default tables hold no map, which is why the engine never does. *)
Example merge_gomap_stores_in_place :
  let σ : heap := {[ 1%positive := {[ "a" := "" ]};
                     2%positive := {[ "a" := "x"; "b" := "y" ]} ]} in
  deepMerge (Some 1%positive) (Some 2%positive)
    {| world_heap := σ; world_log := []; world_panic := None |} =
  (Some (Some 1%positive),
   {| world_heap := <[ 1%positive := {[ "a" := "x"; "b" := "y" ]} ]> σ;
      world_log := []; world_panic := None |}).
Proof. vm_compute. reflexivity. Qed.

(** An engine value and an e-mail with nothing set render on the defaults
    alone, to HTML and to plain text. *)
Example zero_values_render :
  fst (GenerateHTML (X := Sample.externals) zeroHermes zeroEmail Sample.empty_world) =
    Some (Hermes_after_merge (X := Sample.externals) zeroHermes,
          ("<html>Hi , Yours truly</html>", None)) /\
  fst (GeneratePlainText (X := Sample.externals) zeroHermes zeroEmail Sample.empty_world) =
    Some (Hermes_after_merge (X := Sample.externals) zeroHermes,
          ("<html>Hi , Yours truly</html>", None)).
Proof. split; vm_compute; reflexivity. Qed.

(** * Further properties of the engine *)

Section EngineExtras.

Context `{X : Externals}.

Lemma selected_theme_after_merge (h : Hermes) :
  selected_theme (Hermes_after_merge h) = selected_theme h.
Proof. reflexivity. Qed.

Lemma render_after_merge (h : Hermes) (email : Email) (tplt : string) (σ : heap) :
  render h (Email_after_merge email) tplt σ = render h email tplt σ.
Proof.
  unfold render.
  now rewrite (proj1 (default_merge_twice email h)).
Qed.

Lemma render_calls_start (h : Hermes) (email : Email) (tplt : string) (σ : heap) :
  exists cs,
    snd (render h email tplt σ) =
    call_mergo_Merge_Email :: call_template_Parse tplt :: cs.
Proof.
  unfold render.
  destruct (template_Parse hermesTemplate tplt) as [t [e|]]; [ now eexists | ].
  destruct (template_Execute t _ σ) as [b [e|]]; [ now eexists | ].
  destruct (DisableCSSInlining h); now eexists.
Qed.

Lemma to_text_calls_start (r : (string * option error) * list call) (c1 c2 : call)
    (cs : list call) :
  snd r = c1 :: c2 :: cs ->
  exists cs', snd (to_text r) = c1 :: c2 :: cs'.
Proof.
  destruct r as [[s [e|]] l]; cbn; intros ->; cbn; now eexists.
Qed.

Lemma entry_point_run (html : bool) (h : Hermes) (email : Email) (w : world) :
  mergo_panics (Hermes_Theme h) = false ->
  entry_point html h email w =
  (Some (Hermes_after_merge h,
         fst (if html
              then render (Hermes_after_merge h) email
                     (HTMLTemplate (selected_theme h)) (world_heap w)
              else to_text (render (Hermes_after_merge h) email
                              (PlainTextTemplate (selected_theme h)) (world_heap w)))),
   logged w (call_mergo_Merge_Hermes ::
             snd (if html
                  then render (Hermes_after_merge h) email
                         (HTMLTemplate (selected_theme h)) (world_heap w)
                  else to_text (render (Hermes_after_merge h) email
                                  (PlainTextTemplate (selected_theme h)) (world_heap w))))).
Proof.
  intros Hs. destruct html; cbn -[render to_text].
  - now apply GenerateHTML_run.
  - now apply GeneratePlainText_run.
Qed.

Lemma entry_point_panics (html : bool) (h : Hermes) (email : Email) (w : world) :
  mergo_panics (Hermes_Theme h) = true ->
  entry_point html h email w =
  (None, panicking (logged w [call_mergo_Merge_Hermes]) field_index_out_of_range).
Proof.
  intros Hs. destruct html; cbn.
  - now apply GenerateHTML_panics.
  - now apply GeneratePlainText_panics.
Qed.

(** An entry point that returned had an engine value the merge walks. *)
Lemma entry_point_returned (html : bool) (h : Hermes) (email : Email) (w w' : world)
    (r : Hermes * (string * option error)) :
  entry_point html h email w = (Some r, w') ->
  mergo_panics (Hermes_Theme h) = false.
Proof.
  destruct (mergo_panics (Hermes_Theme h)) eqn:Hs; [ | reflexivity ].
  now rewrite entry_point_panics.
Qed.

(** The two merges, once they returned, in closed form. *)
Lemma merges_returned (h h' : Hermes) (email email' : Email) (w w1 w2 : world) :
  SetDefaultHermesValues h w = (Some (h', None), w1) ->
  SetDefaultEmailValues email w = (Some (email', None), w2) ->
  mergo_panics (Hermes_Theme h) = false /\
  h' = Hermes_after_merge h /\
  email' = Email_after_merge email.
Proof.
  intros Hh He.
  pose proof (SetDefaultHermesValues_returned _ _ _ _ Hh) as Hs.
  rewrite SetDefaultHermesValues_run in Hh by assumption.
  rewrite SetDefaultEmailValues_run in He.
  injection Hh as <-. injection He as <-. now repeat split.
Qed.

(** X1. Rendering the values the default mergers return gives what
    rendering the caller's values gives: writing a default out by hand (the
    greeting "Hi", the text direction "ltr", the built-in theme, ...) changes
    neither the string, nor the error, nor the calls made. *)
Theorem rendering_ignores_prefilled_defaults
    (h h' : Hermes) (email email' : Email) (w w1 w2 : world) (html : bool) :
  SetDefaultHermesValues h w = (Some (h', None), w1) ->
  SetDefaultEmailValues email w = (Some (email', None), w2) ->
  entry_point html h' email' w = entry_point html h email w.
Proof.
  intros Hh He.
  destruct (merges_returned _ _ _ _ _ _ _ Hh He) as (Hs & -> & ->).
  rewrite !entry_point_run by (assumption || now apply mergo_panics_after_merge).
  rewrite selected_theme_after_merge.
  rewrite (proj2 (default_merge_twice email h)).
  now rewrite !render_after_merge.
Qed.

(** X2. The engine value changes at most once: after a first call of
    either entry point at a call site, a further call of either entry point
    returns and leaves both of the caller's variables as they are. *)
Theorem engine_value_settles
    (first second : bool) (f f1 : frame) (r1 : string * option error) (w w1 : world) :
  at_call_site (entry_point first) f w = (Some (f1, r1), w1) ->
  exists r2 w2,
    at_call_site (entry_point second) f1 w1 = (Some (f1, r2), w2).
Proof.
  unfold at_call_site, bind.
  destruct (mergo_panics (Hermes_Theme (var_h f))) eqn:Hs;
    [ now rewrite entry_point_panics | ].
  rewrite entry_point_run by assumption.
  intros H1. injection H1 as <- _ _.
  rewrite entry_point_run by (now apply mergo_panics_after_merge);
    cbn -[render to_text].
  rewrite (proj2 (default_merge_twice (var_email f) (var_h f))).
  now do 2 eexists.
Qed.

(** X3. When the template parses but its execution fails, the entry point
    returns the execution error with the empty string, whatever the
    execution had written to the buffer before failing, and calls neither
    the CSS inliner nor the text converter. *)
Theorem execution_error_discards_buffer
    (h h' : Hermes) (email email' : Email) (w w1 w2 : world) (th : ThemeImpl)
    (html : bool) (t : parsed) (b : string) (e : error) :
  SetDefaultHermesValues h w = (Some (h', None), w1) ->
  SetDefaultEmailValues email w = (Some (email', None), w2) ->
  Hermes_Theme h' = Some th ->
  template_Parse hermesTemplate
    (if html then HTMLTemplate th else PlainTextTemplate th) = (t, None) ->
  template_Execute t {| Template_Hermes := h'; Template_Email := email' |}
    (world_heap w) = (b, Some e) ->
  entry_point html h email w =
  (Some (h', ("", Some e)),
   logged w [call_mergo_Merge_Hermes; call_mergo_Merge_Email;
             call_template_Parse (if html then HTMLTemplate th else PlainTextTemplate th);
             call_template_Execute]).
Proof.
  intros Hh He.
  destruct (merges_returned _ _ _ _ _ _ _ Hh He) as (Hs & -> & ->).
  cbn. intros Hth. injection Hth as <-.
  intros Hp Hx. rewrite entry_point_run by assumption.
  destruct html; unfold render, to_text; rewrite Hp, Hx; reflexivity.
Qed.

(** X4. With inlining on, an error of the CSS inliner, whether on reading
    the rendered document or on transforming it, is returned with the empty
    string; on the plain-text path the text converter is then never
    called. *)
Theorem inliner_error_aborts
    (h h' : Hermes) (email email' : Email) (w w1 w2 : world) (th : ThemeImpl)
    (html : bool) (t : parsed) (b : string) :
  SetDefaultHermesValues h w = (Some (h', None), w1) ->
  SetDefaultEmailValues email w = (Some (email', None), w2) ->
  Hermes_Theme h' = Some th ->
  DisableCSSInlining h = false ->
  template_Parse hermesTemplate
    (if html then HTMLTemplate th else PlainTextTemplate th) = (t, None) ->
  template_Execute t {| Template_Hermes := h'; Template_Email := email' |}
    (world_heap w) = (b, None) ->
  (forall prem e,
      premailer_NewPremailerFromString b = (prem, Some e) ->
      entry_point html h email w =
      (Some (h', ("", Some e)),
       logged w [call_mergo_Merge_Hermes; call_mergo_Merge_Email;
                 call_template_Parse (if html then HTMLTemplate th else PlainTextTemplate th);
                 call_template_Execute;
                 call_premailer_NewPremailerFromString b])) /\
  (forall prem out e,
      premailer_NewPremailerFromString b = (prem, None) ->
      premailer_Transform prem = (out, Some e) ->
      entry_point html h email w =
      (Some (h', ("", Some e)),
       logged w [call_mergo_Merge_Hermes; call_mergo_Merge_Email;
                 call_template_Parse (if html then HTMLTemplate th else PlainTextTemplate th);
                 call_template_Execute;
                 call_premailer_NewPremailerFromString b;
                 call_premailer_Transform])).
Proof.
  intros Hh He.
  destruct (merges_returned _ _ _ _ _ _ _ Hh He) as (Hs & -> & ->).
  cbn. intros Hth. injection Hth as <-.
  intros Hd Hp Hx.
  split.
  - intros prem e Hn. rewrite entry_point_run by assumption.
    destruct html; unfold render, to_text, inline_css; cbn;
      rewrite Hp, Hx, Hd, Hn; reflexivity.
  - intros prem out e Hn Ht. rewrite entry_point_run by assumption.
    destruct html; unfold render, to_text, inline_css; cbn;
      rewrite Hp, Hx, Hd, Hn, Ht; reflexivity.
Qed.

(** X5. An engine value without a theme is never dereferenced as such: the
    entry point returns, the template it parses is the built-in theme's, and
    the caller's engine value comes back holding the built-in theme. *)
Theorem missing_theme_renders_built_in
    (h : Hermes) (email : Email) (w : world) (html : bool) :
  Hermes_Theme h = None ->
  exists h' r cs,
    entry_point html h email w =
    (Some (h', r),
     logged w (call_mergo_Merge_Hermes :: call_mergo_Merge_Email ::
               call_template_Parse (if html then HTMLTemplate themes_Default
                                    else PlainTextTemplate themes_Default) :: cs)) /\
    Hermes_Theme h' = Some themes_Default.
Proof.
  intros Hn. rewrite entry_point_run by (now rewrite Hn).
  assert (selected_theme h = themes_Default) as Hs
    by (unfold selected_theme; now rewrite Hn).
  rewrite Hs.
  destruct html.
  - destruct (render_calls_start (Hermes_after_merge h) email
                (HTMLTemplate themes_Default) (world_heap w)) as [cs Hcs].
    rewrite Hcs. do 3 eexists. split; [ reflexivity | ].
    cbn. now rewrite Hs.
  - destruct (render_calls_start (Hermes_after_merge h) email
                (PlainTextTemplate themes_Default) (world_heap w)) as [cs Hcs].
    destruct (to_text_calls_start _ _ _ _ Hcs) as [cs' Hcs'].
    rewrite Hcs'. do 3 eexists. split; [ reflexivity | ].
    cbn. now rewrite Hs.
Qed.

(** X6. In the template the engine parses, [safe] is the engine's
    conversion to [template.HTML] and [url] its conversion to
    [template.URL], whatever sprig registers under these two names; every
    other name is sprig's. *)
Theorem engine_helpers_shadow_sprig (name : string) :
  helper_of hermesTemplate "safe" = Some string_as_HTML /\
  helper_of hermesTemplate "url" = Some string_as_URL /\
  (name <> "safe" -> name <> "url" ->
   helper_of hermesTemplate name = lookup_helper name sprig_FuncMap).
Proof.
  unfold helper_of, hermesTemplate, Funcs, templateFuncs, template_New;
    cbn -[String.eqb].
  split; [ reflexivity | ]. split; [ reflexivity | ].
  intros Hs Hu.
  destruct (String.eqb_spec "safe" name) as [E|_]; [ congruence | ].
  destruct (String.eqb_spec "url" name) as [E|_]; [ congruence | ].
  now rewrite app_nil_r.
Qed.

End EngineExtras.

(** * Properties of the example program *)

Import Program.

Lemma string_length_append (a b : string) :
  String.length (a ++ b) = String.length a + String.length b.
Proof.
  induction a as [|c a IH]; [ reflexivity | ].
  change (S (String.length (a ++ b)) = S (String.length a) + String.length b).
  now rewrite IH.
Qed.

Lemma not_under_examples (n : string) : n <> "examples/" ++ n.
Proof.
  intros Hn. apply (f_equal String.length) in Hn.
  rewrite string_length_append in Hn.
  change (String.length "examples/") with 9 in Hn. lia.
Qed.

Section ProgramFacts.

Context `{X : Externals} `{H : Host}.

(** X7. [send] answers with the message of the first setting it finds
    missing (server, port, user, sender identity, sender e-mail, receiver, in
    this order) and then contacts nobody; when none is missing it dials once
    and answers what the dialer answers. *)
Theorem send_reports_first_missing_setting
    (c : smtpAuthentication) (o : sendOptions) (htmlBody txtBody : string) (pw : pworld) :
  (forall e rest,
      missing_settings c o = e :: rest ->
      send c o htmlBody txtBody pw = (Done (Some e), pw)) /\
  (missing_settings c o = [] ->
   exists d m,
     send c o htmlBody txtBody pw =
     (Done (gomail_DialAndSend (host_log pw) d m),
      host_logged pw [call_gomail_DialAndSend d m])).
Proof.
  unfold send, missing_settings.
  destruct (String.eqb (Server c) "");
    [ split; [ intros e rest [= <- _]; reflexivity | discriminate ] | ].
  destruct (Z.eqb (Port c) 0);
    [ split; [ intros e rest [= <- _]; reflexivity | discriminate ] | ].
  destruct (String.eqb (SMTPUser c) "");
    [ split; [ intros e rest [= <- _]; reflexivity | discriminate ] | ].
  destruct (String.eqb (SenderIdentity c) "");
    [ split; [ intros e rest [= <- _]; reflexivity | discriminate ] | ].
  destruct (String.eqb (SenderEmail c) "");
    [ split; [ intros e rest [= <- _]; reflexivity | discriminate ] | ].
  destruct (String.eqb (To o) "");
    [ split; [ intros e rest [= <- _]; reflexivity | discriminate ] | ].
  split; [ discriminate | ].
  intros _. do 2 eexists. reflexivity.
Qed.

(** X8. When no setting is missing, the one message [send] dials has the
    sender built from identity and e-mail under [From], the receiver under
    [To], the subject under [Subject], and two parts: the plain text first,
    the HTML as its alternative.  The dialer gets server, port, user and
    password as configured; the password is passed on unchecked, empty or
    not. *)
Theorem send_message_contents
    (c : smtpAuthentication) (o : sendOptions) (htmlBody txtBody : string) (pw : pworld) :
  missing_settings c o = [] ->
  exists m,
    host_log (snd (send c o htmlBody txtBody pw)) =
      (host_log pw ++
       [call_gomail_DialAndSend
          {| Dialer_Host := Server c; Dialer_Port := Port c;
             Dialer_Username := SMTPUser c; Dialer_Password := SMTPPassword c |} m])%list /\
    header m !! "From" =
      Some [mail_Address_String {| Address_Name := SenderIdentity c;
                                   Address_Address := SenderEmail c |}] /\
    header m !! "To" = Some [To o] /\
    header m !! "Subject" = Some [Subject o] /\
    parts m = [("text/plain", txtBody); ("text/html", htmlBody)].
Proof.
  unfold send, missing_settings.
  destruct (String.eqb (Server c) ""); [ discriminate | ].
  destruct (Z.eqb (Port c) 0); [ discriminate | ].
  destruct (String.eqb (SMTPUser c) ""); [ discriminate | ].
  destruct (String.eqb (SenderIdentity c) ""); [ discriminate | ].
  destruct (String.eqb (SenderEmail c) ""); [ discriminate | ].
  destruct (String.eqb (To o) ""); [ discriminate | ].
  intros _. eexists. split; [ reflexivity | ].
  unfold SetHeader, SetBody, AddAlternative, NewMessage; cbn.
  split; [ | split; [ | split ] ].
  - rewrite lookup_insert_ne by discriminate.
    rewrite lookup_insert_ne by discriminate.
    apply lookup_insert_eq.
  - rewrite lookup_insert_ne by discriminate.
    apply lookup_insert_eq.
  - apply lookup_insert_eq.
  - reflexivity.
Qed.

Lemma send_reports_first_missing_setting_aux
    (c : smtpAuthentication) (o : sendOptions) (htmlBody txtBody : string) (pw : pworld) :
  (exists e, send c o htmlBody txtBody pw = (Done (Some e), pw)) \/
  (exists d m,
      send c o htmlBody txtBody pw =
      (Done (gomail_DialAndSend (host_log pw) d m),
       host_logged pw [call_gomail_DialAndSend d m])).
Proof.
  unfold send.
  destruct (String.eqb (Server c) ""); [ left; now eexists | ].
  destruct (Z.eqb (Port c) 0); [ left; now eexists | ].
  destruct (String.eqb (SMTPUser c) ""); [ left; now eexists | ].
  destruct (String.eqb (SenderIdentity c) ""); [ left; now eexists | ].
  destruct (String.eqb (SenderEmail c) ""); [ left; now eexists | ].
  destruct (String.eqb (To o) ""); [ left; now eexists | ].
  right. now do 2 eexists.
Qed.

(** Calls on the engine made by the program. *)
Lemma lift_entry_point (html : bool) (h : Hermes) (email : Email) (pw : pworld) :
  mergo_panics (Hermes_Theme h) = false ->
  exists r cs,
    entry_point html h email (engine_world pw) =
      (Some (Hermes_after_merge h, r), logged (engine_world pw) cs) /\
    lift (entry_point html h email) pw =
      (Done (Hermes_after_merge h, r),
       {| engine_world := logged (engine_world pw) cs; host_log := host_log pw |}).
Proof.
  intros Hs. unfold lift. rewrite entry_point_run by assumption.
  do 2 eexists. split; reflexivity.
Qed.

Lemma Theme_Name_after_merge (h : Hermes) (pw : pworld) :
  Theme_Name (Hermes_after_merge h) pw =
  (Done (Name (selected_theme h)),
   {| engine_world := engine_world pw; host_log := host_log pw |}).
Proof. reflexivity. Qed.

Lemma Theme_Name_set (h : Hermes) (th : ThemeImpl) (pw : pworld) :
  Hermes_Theme h = Some th ->
  Theme_Name h pw =
  (Done (Name th), {| engine_world := engine_world pw; host_log := host_log pw |}).
Proof. intros Hth. unfold Theme_Name, lift. now rewrite Hth. Qed.

Ltac run_program :=
  unfold generateEmails, pbind, ppanic, pret, lift, MkdirAll, WriteFile, host,
    Theme_Name.

(** X9. When both renderings succeed and the file system accepts
    everything, [generateEmails] creates the directory named after the theme
    in use, then writes the HTML the engine returns for the caller's values
    to [examples/<theme>/<theme>.<example>.html] and the plain text to the
    [.txt] twin, and returns.  The directory it creates is not the one it
    writes into. *)
Theorem generateEmails_writes_both_renderings
    (h h1 h2 : Hermes) (email : Email) (example : string) (pw : pworld)
    (html txt : string) (w1 w2 : world) :
  fs_accepts ->
  GenerateHTML h email (engine_world pw) = (Some (h1, (html, None)), w1) ->
  GeneratePlainText h email (engine_world pw) = (Some (h2, (txt, None)), w2) ->
  exists w',
    generateEmails h email example pw =
    (Done tt,
     {| engine_world := w';
        host_log :=
          (host_log pw ++
           [call_os_MkdirAll (Name (selected_theme h)) 484;
            call_os_WriteFile (html_path (Name (selected_theme h)) example) html 420;
            call_os_WriteFile (txt_path (Name (selected_theme h)) example) txt 420])%list |}) /\
    Name (selected_theme h) <> "examples/" ++ Name (selected_theme h).
Proof.
  intros [Hmk Hwr] Hhtml Htxt. destruct pw as [w l]; cbn [engine_world] in Hhtml, Htxt.
  pose proof (entry_point_returned true _ _ _ _ _ Hhtml) as Hs.
  pose proof (mergo_panics_after_merge h Hs) as Hs'.
  rewrite GenerateHTML_run in Hhtml by assumption; cbn zeta in Hhtml.
  injection Hhtml as _ Hr1 _.
  rewrite GeneratePlainText_run in Htxt by assumption; cbn zeta in Htxt.
  injection Htxt as _ Hr2 _.
  eexists. split; [ | apply not_under_examples ].
  run_program; cbn -[render to_text GenerateHTML GeneratePlainText].
  rewrite GenerateHTML_run by assumption; cbn -[render to_text GeneratePlainText].
  rewrite Hr1; cbn -[render to_text GeneratePlainText].
  rewrite Hmk, Hwr; cbn -[render to_text GeneratePlainText].
  rewrite GeneratePlainText_run by assumption; cbn -[render to_text].
  rewrite (proj2 (default_merge_twice email h)), Hr2; cbn -[render to_text].
  rewrite Hwr; cbn.
  unfold html_path, txt_path. rewrite <- !app_assoc. reflexivity.
Qed.

(** X10. When the HTML rendering fails, [generateEmails] panics with the
    engine's error before touching the file system: no directory is created
    and no file written. *)
Theorem generateEmails_html_error_panics
    (h h1 : Hermes) (email : Email) (example : string) (pw : pworld)
    (s : string) (e : error) (w1 : world) :
  GenerateHTML h email (engine_world pw) = (Some (h1, (s, Some e)), w1) ->
  generateEmails h email example pw =
  (Panic e, {| engine_world := w1; host_log := host_log pw |}).
Proof.
  intros Hhtml. run_program. now rewrite Hhtml.
Qed.

(** X11. When the HTML rendering succeeds and the plain-text one fails,
    [generateEmails] panics with the engine's error after the HTML file has
    been written: the directory and the HTML file stay behind, and no text
    file is written. *)
Theorem generateEmails_text_error_leaves_html
    (h h1 h2 : Hermes) (email : Email) (example : string) (pw : pworld)
    (html s : string) (e : error) (w1 w2 : world) :
  fs_accepts ->
  GenerateHTML h email (engine_world pw) = (Some (h1, (html, None)), w1) ->
  GeneratePlainText h email (engine_world pw) = (Some (h2, (s, Some e)), w2) ->
  exists w',
    generateEmails h email example pw =
    (Panic e,
     {| engine_world := w';
        host_log :=
          (host_log pw ++
           [call_os_MkdirAll (Name (selected_theme h)) 484;
            call_os_WriteFile (html_path (Name (selected_theme h)) example) html 420])%list |}).
Proof.
  intros [Hmk Hwr] Hhtml Htxt. destruct pw as [w l]; cbn [engine_world] in Hhtml, Htxt.
  pose proof (entry_point_returned true _ _ _ _ _ Hhtml) as Hs.
  pose proof (mergo_panics_after_merge h Hs) as Hs'.
  rewrite GenerateHTML_run in Hhtml by assumption; cbn zeta in Hhtml.
  injection Hhtml as _ Hr1 _.
  rewrite GeneratePlainText_run in Htxt by assumption; cbn zeta in Htxt.
  injection Htxt as _ Hr2 _.
  eexists.
  run_program; cbn -[render to_text GenerateHTML GeneratePlainText].
  rewrite GenerateHTML_run by assumption; cbn -[render to_text GeneratePlainText].
  rewrite Hr1; cbn -[render to_text GeneratePlainText].
  rewrite Hmk, Hwr; cbn -[render to_text GeneratePlainText].
  rewrite GeneratePlainText_run by assumption; cbn -[render to_text].
  rewrite (proj2 (default_merge_twice email h)), Hr2; cbn -[render to_text].
  unfold html_path. rewrite <- !app_assoc. reflexivity.
Qed.

(** What the loops record. *)
Lemma written_names_app (a b : list host_call) :
  written_names (a ++ b) = (written_names a ++ written_names b)%list.
Proof. apply flat_map_app. Qed.

Lemma read_names_app (a b : list host_call) :
  read_names (a ++ b) = (read_names a ++ read_names b)%list.
Proof. apply flat_map_app. Qed.

Lemma dialled_app (a b : list host_call) :
  dialled (a ++ b) = (dialled a ++ dialled b)%list.
Proof. apply flat_map_app. Qed.

Lemma fs_write_reads_nothing (evs : list host_call) :
  forallb is_fs_write evs = true -> read_names evs = [] /\ dialled evs = [].
Proof.
  induction evs as [|c evs IH]; cbn; [ now split | ].
  rewrite andb_true_iff. intros [Hc Hevs].
  destruct c; try discriminate Hc; cbn; now apply IH.
Qed.

Lemma generateEmails_events (h : Hermes) (email : Email) (example : string) (pw : pworld) :
  exists evs,
    host_log (snd (generateEmails h email example pw)) = (host_log pw ++ evs)%list /\
    forallb is_fs_write evs = true /\
    (fst (generateEmails h email example pw) = Done tt ->
     written_names evs =
       [html_path (Name (selected_theme h)) example;
        txt_path (Name (selected_theme h)) example]).
Proof.
  destruct pw as [w l].
  run_program; cbn -[render to_text GenerateHTML GeneratePlainText].
  destruct (mergo_panics (Hermes_Theme h)) eqn:Hs.
  { rewrite GenerateHTML_panics by assumption; cbn.
    exists []. rewrite app_nil_r. repeat split; discriminate. }
  pose proof (mergo_panics_after_merge h Hs) as Hs'.
  rewrite GenerateHTML_run by assumption; cbn -[render to_text GeneratePlainText].
  destruct (render _ email _ (world_heap w)) as [[s1 [e1|]] cs1]; cbn -[to_text GeneratePlainText].
  { exists []. rewrite app_nil_r. repeat split; discriminate. }
  destruct (os_MkdirAll l _ _) as [e|]; cbn -[to_text GeneratePlainText].
  { eexists. split; [ reflexivity | ]. split; [ reflexivity | discriminate ]. }
  destruct (os_WriteFile _ _ _ _) as [e|]; cbn -[to_text GeneratePlainText].
  { eexists. rewrite <- !app_assoc. split; [ reflexivity | ].
    split; [ reflexivity | discriminate ]. }
  rewrite GeneratePlainText_run by assumption; cbn -[render to_text].
  destruct (to_text _) as [[s2 [e2|]] cs2]; cbn.
  { eexists. rewrite <- !app_assoc. split; [ reflexivity | ].
    split; [ reflexivity | discriminate ]. }
  destruct (os_WriteFile _ _ _ _) as [e|]; cbn.
  { eexists. rewrite <- !app_assoc. split; [ reflexivity | ].
    split; [ reflexivity | discriminate ]. }
  eexists. rewrite <- !app_assoc. split; [ reflexivity | ].
  split; [ reflexivity | ]. intros _. reflexivity.
Qed.

Lemma range_examples_events (h : Hermes) (examples : list example) (pw : pworld) :
  exists evs,
    host_log (snd (range_examples examples
                     (fun e => generateEmails h (example_Email e) (example_Name e)) pw)) =
      (host_log pw ++ evs)%list /\
    forallb is_fs_write evs = true /\
    (fst (range_examples examples
            (fun e => generateEmails h (example_Email e) (example_Name e)) pw) = Done tt ->
     written_names evs = flat_map (files_of (Name (selected_theme h))) examples).
Proof.
  revert pw. induction examples as [|e rest IH]; intros pw.
  { exists []. cbn. rewrite app_nil_r. now repeat split. }
  cbn [range_examples]. unfold pbind.
  destruct (generateEmails_events h (example_Email e) (example_Name e) pw)
    as (evs1 & Hlog1 & Hfs1 & Hw1).
  destruct (generateEmails h (example_Email e) (example_Name e) pw) as [[[]|v] pw1];
    cbn [fst snd] in *.
  - destruct (IH pw1) as (evs2 & Hlog2 & Hfs2 & Hw2).
    exists (evs1 ++ evs2)%list.
    rewrite Hlog2, Hlog1, app_assoc. split; [ reflexivity | ].
    rewrite forallb_app, Hfs1, Hfs2. split; [ reflexivity | ].
    intros Hdone. rewrite written_names_app, Hw1, (Hw2 Hdone) by reflexivity.
    reflexivity.
  - exists evs1. now repeat split.
Qed.

Lemma generate_all_events (h : Hermes) (themes : list Theme) (examples : list example)
    (pw : pworld) :
  exists evs,
    host_log (snd (generate_all h themes examples pw)) = (host_log pw ++ evs)%list /\
    forallb is_fs_write evs = true /\
    (forall ths h',
        themes = map Some ths ->
        fst (generate_all h themes examples pw) = Done h' ->
        written_names evs = all_files ths examples).
Proof.
  unfold generate_all.
  revert h pw. induction themes as [|theme rest IH]; intros h pw.
  { exists []. cbn. rewrite app_nil_r. split; [ reflexivity | ].
    split; [ reflexivity | ]. intros [|th ths] h' Hths _; [ reflexivity | discriminate ]. }
  cbn [range_themes]. unfold pbind.
  destruct (range_examples_events (set_Theme h theme) examples pw)
    as (evs1 & Hlog1 & Hfs1 & Hw1).
  destruct (range_examples examples _ pw) as [[[]|v] pw1]; cbn [fst snd] in *.
  - destruct (IH (set_Theme h theme) pw1) as (evs2 & Hlog2 & Hfs2 & Hw2).
    exists (evs1 ++ evs2)%list.
    rewrite Hlog2, Hlog1, app_assoc. split; [ reflexivity | ].
    rewrite forallb_app, Hfs1, Hfs2. split; [ reflexivity | ].
    intros [|th ths] h' Hths Hdone; [ discriminate | ].
    injection Hths as -> ->.
    rewrite written_names_app, Hw1, (Hw2 ths h') by reflexivity || assumption.
    reflexivity.
  - exists evs1. split; [ assumption | ]. split; [ assumption | ].
    intros ths h' _ Hdone. discriminate Hdone.
Qed.

Lemma send_events (c : smtpAuthentication) (o : sendOptions) (htmlBody txtBody : string)
    (pw : pworld) :
  exists evs,
    host_log (snd (send c o htmlBody txtBody pw)) = (host_log pw ++ evs)%list /\
    written_names evs = [] /\
    read_names evs = [] /\
    (fst (send c o htmlBody txtBody pw) = Done None -> length (dialled evs) = 1).
Proof.
  destruct (send_reports_first_missing_setting_aux c o htmlBody txtBody pw)
    as [(e & ->)|(d & m & ->)].
  - exists []. cbn. rewrite app_nil_r. repeat split. discriminate.
  - eexists. cbn. split; [ reflexivity | ]. now repeat split.
Qed.

Lemma send_example_events (c : smtpAuthentication) (o : sendOptions) (h : Hermes)
    (th : ThemeImpl) (e : example) (pw : pworld) :
  Hermes_Theme h = Some th ->
  exists evs,
    host_log (snd (send_example c o h e pw)) = (host_log pw ++ evs)%list /\
    written_names evs = [] /\
    (forall o', fst (send_example c o h e pw) = Done o' ->
                read_names evs = files_of (Name th) e /\ length (dialled evs) = 1).
Proof.
  intros Hth. destruct pw as [w l].
  unfold send_example, pbind, ppanic, pret, Printf, ReadFile, host, Theme_Name, lift.
  rewrite Hth; cbn -[send].
  destruct (os_ReadFile _ _) as [htmlBytes [v|]]; cbn -[send].
  { eexists. rewrite <- !app_assoc. split; [ reflexivity | ].
    split; [ reflexivity | discriminate ]. }
  destruct (os_ReadFile _ _) as [txtBytes [v|]]; cbn -[send].
  { eexists. rewrite <- !app_assoc. split; [ reflexivity | ].
    split; [ reflexivity | discriminate ]. }
  match goal with
  | |- context [send ?c' ?o' ?a ?b ?p] =>
      destruct (send_events c' o' a b p) as (evs & Hlog & Hw & Hr & Hd);
      destruct (send c' o' a b p) as [[[v|]|v] pw1]
  end; cbn [fst snd host_log] in *; unfold written_names, read_names, dialled in *.
  - eexists. rewrite Hlog, <- !app_assoc. split; [ reflexivity | ].
    cbn. rewrite Hw. split; [ reflexivity | discriminate ].
  - eexists. rewrite Hlog, <- !app_assoc. split; [ reflexivity | ].
    cbn. rewrite Hw. split; [ reflexivity | ].
    intros o' _. rewrite Hr. split; [ reflexivity | ].
    cbn. now apply Hd.
  - eexists. rewrite Hlog, <- !app_assoc. split; [ reflexivity | ].
    cbn. rewrite Hw. split; [ reflexivity | discriminate ].
Qed.

Lemma send_examples_events (c : smtpAuthentication) (h : Hermes) (th : ThemeImpl)
    (examples : list example) (o : sendOptions) (pw : pworld) :
  Hermes_Theme h = Some th ->
  exists evs,
    host_log (snd (send_examples c o h examples pw)) = (host_log pw ++ evs)%list /\
    written_names evs = [] /\
    (forall o', fst (send_examples c o h examples pw) = Done o' ->
                read_names evs = flat_map (files_of (Name th)) examples /\
                length (dialled evs) = length examples).
Proof.
  intros Hth. revert o pw. induction examples as [|e rest IH]; intros o pw.
  { exists []. cbn. rewrite app_nil_r. now repeat split. }
  cbn [send_examples]. unfold pbind.
  destruct (send_example_events c o h th e pw Hth) as (evs1 & Hlog1 & Hw1 & Hr1).
  destruct (send_example c o h e pw) as [[o1|v] pw1]; cbn [fst snd] in *.
  - destruct (IH o1 pw1) as (evs2 & Hlog2 & Hw2 & Hr2).
    exists (evs1 ++ evs2)%list.
    rewrite Hlog2, Hlog1, app_assoc. split; [ reflexivity | ].
    rewrite written_names_app, Hw1, Hw2. split; [ reflexivity | ].
    intros o' Hdone.
    destruct (Hr1 o1 eq_refl) as [Hra Hda]. destruct (Hr2 o' Hdone) as [Hrb Hdb].
    rewrite read_names_app, dialled_app, length_app, Hra, Hrb, Hda, Hdb.
    now split.
  - exists evs1. split; [ assumption | ]. split; [ assumption | ].
    intros o' Hdone. discriminate Hdone.
Qed.

Lemma send_all_events (c : smtpAuthentication) (ths : list ThemeImpl)
    (examples : list example) (o : sendOptions) (h : Hermes) (pw : pworld) :
  exists evs,
    host_log (snd (send_all c o h (map Some ths) examples pw)) = (host_log pw ++ evs)%list /\
    written_names evs = [] /\
    (fst (send_all c o h (map Some ths) examples pw) = Done tt ->
     read_names evs = all_files ths examples /\
     length (dialled evs) = length ths * length examples).
Proof.
  revert o h pw. induction ths as [|th rest IH]; intros o h pw.
  { exists []. cbn. rewrite app_nil_r. now repeat split. }
  cbn [map send_all]. unfold pbind.
  destruct (send_examples_events c (set_Theme h (Some th)) th examples o pw eq_refl)
    as (evs1 & Hlog1 & Hw1 & Hr1).
  destruct (send_examples c o _ examples pw) as [[o1|v] pw1]; cbn [fst snd] in *.
  - destruct (IH o1 (set_Theme h (Some th)) pw1) as (evs2 & Hlog2 & Hw2 & Hr2).
    exists (evs1 ++ evs2)%list.
    rewrite Hlog2, Hlog1, app_assoc. split; [ reflexivity | ].
    rewrite written_names_app, Hw1, Hw2. split; [ reflexivity | ].
    intros Hdone.
    destruct (Hr1 o1 eq_refl) as [Hra Hda]. destruct (Hr2 Hdone) as [Hrb Hdb].
    rewrite read_names_app, dialled_app, length_app, Hra, Hrb, Hda, Hdb.
    now split.
  - exists evs1. split; [ assumption | ]. split; [ assumption | ].
    intros Hdone. discriminate Hdone.
Qed.

(** Composing what computations record. *)
Lemma emits_pret {A} (a : A) : emits (pret a) [] [] 0.
Proof.
  intros pw. exists []. cbn. rewrite app_nil_r. now repeat split.
Qed.

Lemma emits_bind {A B} (m : P A) (f : A -> P B) (W1 W2 R1 R2 : list string) (D1 D2 : nat) :
  emits m W1 R1 D1 ->
  (forall a, emits (f a) W2 R2 D2) ->
  emits (pbind m f) (W1 ++ W2) (R1 ++ R2) (D1 + D2).
Proof.
  intros Hm Hf pw. unfold pbind.
  destruct (Hm pw) as (e1 & Hl1 & H1).
  destruct (m pw) as [[a|v] pw1]; cbn [fst snd] in *.
  - destruct (Hf a pw1) as (e2 & Hl2 & H2).
    exists (e1 ++ e2)%list. rewrite Hl2, Hl1, app_assoc. split; [ reflexivity | ].
    intros b Hb.
    destruct (H1 a eq_refl) as (Hw1 & Hr1 & Hd1).
    destruct (H2 b Hb) as (Hw2 & Hr2 & Hd2).
    rewrite written_names_app, read_names_app, dialled_app, length_app.
    now rewrite Hw1, Hw2, Hr1, Hr2, Hd1, Hd2.
  - exists e1. split; [ assumption | ]. intros b Hb. discriminate Hb.
Qed.

Lemma emits_quiet {A} (c : host_call) (answer : list host_call -> A) :
  is_quiet c = true -> emits (host c answer) [] [] 0.
Proof.
  intros Hc pw. exists [c]. split; [ reflexivity | ].
  intros a _. destruct c; try discriminate Hc; now repeat split.
Qed.

Lemma emits_generate_all (h : Hermes) (ths : list ThemeImpl) (examples : list example) :
  emits (generate_all h (map Some ths) examples) (all_files ths examples) [] 0.
Proof.
  intros pw.
  destruct (generate_all_events h (map Some ths) examples pw) as (evs & Hlog & Hfs & Hw).
  exists evs. split; [ assumption | ].
  intros h' Hdone. destruct (fs_write_reads_nothing evs Hfs) as [Hr Hd].
  rewrite Hr, Hd. split; [ now apply (Hw ths h') | now split ].
Qed.

Lemma emits_send_all (c : smtpAuthentication) (ths : list ThemeImpl)
    (examples : list example) (o : sendOptions) (h : Hermes) :
  emits (send_all c o h (map Some ths) examples) [] (all_files ths examples)
    (length ths * length examples).
Proof.
  intros pw.
  destruct (send_all_events c ths examples o h pw) as (evs & Hlog & Hw & Hr).
  exists evs. split; [ assumption | ].
  intros [] Hdone. destruct (Hr Hdone) as [Hr' Hd]. now repeat split.
Qed.

(** One step through a chain of binds of quiet host calls. *)
Ltac emits_step :=
  lazymatch goal with
  | |- emits (pbind _ _) _ _ _ =>
      eapply (emits_bind _ _ [] _ [] _ 0 _); [ | intro ]
  | |- emits (Getenv _) _ _ _ => apply emits_quiet; reflexivity
  | |- emits (Println _) _ _ _ => apply emits_quiet; reflexivity
  | |- emits (Printf _) _ _ _ => apply emits_quiet; reflexivity
  | |- emits (ReadPassword _) _ _ _ => apply emits_quiet; reflexivity
  | |- emits (pret _) _ _ _ => apply emits_pret
  | |- emits (if ?b then _ else _) _ _ _ => destruct b
  | |- emits (match ?x with (_, _) => _ end) _ _ _ => destruct x
  end.

Ltac emits_steps := repeat emits_step.

(** X12. Unless [HERMES_SEND_EMAILS] reads "true", [main] does nothing
    after reading it but create directories and write files: it reads no
    SMTP setting, prompts for no password, reads no file back and dials
    nobody, however the run ends. *)
Theorem main_without_flag_only_renders (pw : pworld) :
  os_Getenv (host_log pw) "HERMES_SEND_EMAILS" <> "true" ->
  exists evs,
    host_log (snd (main pw)) =
      (host_log pw ++ call_os_Getenv "HERMES_SEND_EMAILS" :: evs)%list /\
    forallb is_fs_write evs = true.
Proof.
  intros Hflag. destruct pw as [w l]; cbn [host_log] in Hflag.
  unfold main, pbind, Getenv, host; cbn -[generate_all send_all String.eqb].
  destruct (String.eqb_spec (os_Getenv l "HERMES_SEND_EMAILS") "true") as [E|_];
    [ contradiction | ].
  match goal with
  | |- context [generate_all ?h ?t ?e ?p] =>
      destruct (generate_all_events h t e p) as (evs & Hlog & Hfs & _);
      destruct (generate_all h t e p) as [[h'|v] pw1]
  end; unfold pret; cbn [fst snd host_log] in *;
    exists evs; rewrite Hlog, <- app_assoc; now split.
Qed.

(** X13. When [HERMES_SEND_EMAILS] reads "true" and [main] runs to its
    end, the files it read back for mailing are, name by name and in the same
    order, the files it wrote: the HTML and the text file of each of the five
    examples under the built-in theme; and it dialled one message per
    example. *)
Theorem main_mails_what_it_rendered (pw : pworld) :
  os_Getenv (host_log pw) "HERMES_SEND_EMAILS" = "true" ->
  fst (main pw) = Done tt ->
  exists evs,
    host_log (snd (main pw)) = (host_log pw ++ evs)%list /\
    written_names evs =
      all_files [themes_Default]
        [mails_Welcome; mails_Reset; Maintenance; mails_Receipt; InviteCode] /\
    read_names evs = written_names evs /\
    length (dialled evs) = 5.
Proof.
  intros Hflag. destruct pw as [w l]; cbn [host_log] in Hflag |- *.
  remember (main {| engine_world := w; host_log := l |}) as run eqn:Hrun.
  unfold main in Hrun. unfold pbind at 1 in Hrun.
  unfold Getenv at 1 in Hrun. unfold host at 1 in Hrun.
  cbn [host_log engine_world] in Hrun. rewrite Hflag in Hrun.
  change (String.eqb "true" "true") with true in Hrun. cbv iota in Hrun.
  match type of Hrun with
  | _ = ?m ?p =>
      assert (emits m
                (all_files [themes_Default]
                   [mails_Welcome; mails_Reset; Maintenance; mails_Receipt; InviteCode] ++ [])
                ([] ++ all_files [themes_Default]
                   [mails_Welcome; mails_Reset; Maintenance; mails_Receipt; InviteCode])
                (0 + 1 * 5)) as Hm;
      [ | destruct (Hm p) as (evs & Hlog & Hdone) ]
  end.
  { eapply emits_bind; [ apply (emits_generate_all _ [themes_Default]) | intros h' ].
    emits_steps.
    exact (emits_send_all _ [themes_Default]
             [mails_Welcome; mails_Reset; Maintenance; mails_Receipt; InviteCode] _ _). }
  rewrite <- Hrun in Hlog, Hdone. clear Hrun Hm.
  intros Hd. destruct (Hdone tt Hd) as (Hw & Hr & Hn).
  cbn [host_log] in Hlog. rewrite Hlog, <- app_assoc.
  eexists. split; [ reflexivity | ].
  cbn [app]. unfold written_names, read_names, dialled in *. cbn [flat_map app].
  rewrite Hw, Hr, Hn, app_nil_r. now repeat split.
Qed.

End ProgramFacts.

(** ** Runs of the further properties on the stand-ins *)

Lemma rendering_ignores_prefilled_defaults_witness :
  exists h' email' w1 w2,
    SetDefaultHermesValues (X := Sample.externals) Sample.example_engine Sample.empty_world =
      (Some (h', None), w1) /\
    SetDefaultEmailValues Sample.invite_code Sample.empty_world = (Some (email', None), w2) /\
    Greeting (Email_Body email') = "Hi" /\
    Greeting (Email_Body Sample.invite_code) = "" /\
    entry_point (X := Sample.externals) true h' email' Sample.empty_world =
    entry_point (X := Sample.externals) true Sample.example_engine Sample.invite_code
      Sample.empty_world.
Proof.
  do 4 eexists.
  split; [ vm_compute; reflexivity | ].
  split; [ vm_compute; reflexivity | ].
  split; [ reflexivity | ].
  split; [ reflexivity | ].
  eapply (rendering_ignores_prefilled_defaults (X := Sample.externals));
    vm_compute; reflexivity.
Defined.

Lemma engine_value_settles_witness :
  exists f1 r1 w1 r2 w2,
    at_call_site (entry_point (X := Sample.externals) true) Sample.example_frame
      Sample.empty_world = (Some (f1, r1), w1) /\
    Hermes_TextDirection (var_h f1) = "ltr" /\
    at_call_site (entry_point (X := Sample.externals) false) f1 w1 = (Some (f1, r2), w2).
Proof.
  destruct (engine_value_settles (X := Sample.externals) true false
              Sample.example_frame
              (fst (default (Sample.example_frame, ("", None))
                      (fst (at_call_site (entry_point (X := Sample.externals) true)
                              Sample.example_frame Sample.empty_world))))
              (snd (default (Sample.example_frame, ("", None))
                      (fst (at_call_site (entry_point (X := Sample.externals) true)
                              Sample.example_frame Sample.empty_world))))
              Sample.empty_world
              (snd (at_call_site (entry_point (X := Sample.externals) true)
                      Sample.example_frame Sample.empty_world)))
    as (r2 & w2 & H2); [ vm_compute; reflexivity | ].
  do 3 eexists. exists r2, w2.
  split; [ vm_compute; reflexivity | ].
  split; [ reflexivity | ].
  exact H2.
Defined.

Lemma execution_error_discards_buffer_witness :
  template_Execute (Externals := Sample.externals) "<p>{{.Email.Body.Greeting}}</p>"
    {| Template_Hermes :=
         Hermes_after_merge (X := Sample.externals)
           (SampleHost.engine_with SampleHost.static_theme);
       Template_Email := Email_after_merge Sample.invite_code |} ∅ =
    ("Hi", Some "template: hermes: nothing to execute") /\
  entry_point (X := Sample.externals) true
    (SampleHost.engine_with SampleHost.static_theme) Sample.invite_code Sample.empty_world =
  (Some (Hermes_after_merge (X := Sample.externals)
           (SampleHost.engine_with SampleHost.static_theme),
         ("", Some "template: hermes: nothing to execute")),
   logged Sample.empty_world
     [call_mergo_Merge_Hermes; call_mergo_Merge_Email;
      call_template_Parse "<p>{{.Email.Body.Greeting}}</p>"; call_template_Execute]).
Proof.
  split; [ reflexivity | ].
  eapply (execution_error_discards_buffer (X := Sample.externals)
            (SampleHost.engine_with SampleHost.static_theme) _
            Sample.invite_code _ Sample.empty_world _ _ SampleHost.static_theme true);
    vm_compute; reflexivity.
Defined.

Lemma inliner_error_aborts_witness :
  entry_point (X := Sample.failing_inliner) false
    Sample.example_engine Sample.invite_code Sample.empty_world =
  (Some (Hermes_after_merge (X := Sample.failing_inliner) Sample.example_engine,
         ("", Some "premailer: malformed style")),
   logged Sample.empty_world
     [call_mergo_Merge_Hermes; call_mergo_Merge_Email;
      call_template_Parse "{{.Email.Body.Greeting}} {{.Email.Body.Name}}";
      call_template_Execute;
      call_premailer_NewPremailerFromString "Hi Jon Snow, Yours truly"]).
Proof.
  refine (proj1 (inliner_error_aborts (X := Sample.failing_inliner)
                   Sample.example_engine
                   (Hermes_after_merge (X := Sample.failing_inliner) Sample.example_engine)
                   Sample.invite_code (Email_after_merge Sample.invite_code)
                   Sample.empty_world
                   (logged Sample.empty_world [call_mergo_Merge_Hermes])
                   (logged Sample.empty_world [call_mergo_Merge_Email])
                   Sample.theme false
                   "{{.Email.Body.Greeting}} {{.Email.Body.Name}}"
                   "Hi Jon Snow, Yours truly" _ _ _ _ _ _)
            "" "premailer: malformed style" _);
    vm_compute; reflexivity.
Defined.

Lemma missing_theme_renders_built_in_witness :
  Hermes_Theme zeroHermes = None /\
  exists h' r cs,
    entry_point (X := Sample.externals) false zeroHermes zeroEmail Sample.empty_world =
    (Some (h', r),
     logged Sample.empty_world
       (call_mergo_Merge_Hermes :: call_mergo_Merge_Email ::
        call_template_Parse "{{.Email.Body.Greeting}} {{.Email.Body.Name}}" :: cs)) /\
    Hermes_Theme h' = Some Sample.theme.
Proof.
  split; [ reflexivity | ].
  apply (missing_theme_renders_built_in (X := Sample.externals)
           zeroHermes zeroEmail Sample.empty_world false).
  reflexivity.
Defined.

Lemma send_message_contents_witness :
  SMTPPassword SampleHost.smtp_config = "" /\
  missing_settings SampleHost.smtp_config SampleHost.smtp_options = [] /\
  exists m,
    host_log (snd (send (H := SampleHost.host_with SampleHost.smtp_env)
                     SampleHost.smtp_config SampleHost.smtp_options
                     "<p>Hi</p>" "Hi" SampleHost.start)) =
      [call_gomail_DialAndSend
         {| Dialer_Host := "smtp.example.com"; Dialer_Port := 587;
            Dialer_Username := "jon"; Dialer_Password := "" |} m] /\
    header m !! "From" = Some ["Jon Snow <jon@example.com>"] /\
    header m !! "To" = Some ["arya@example.com"] /\
    header m !! "Subject" = Some ["Hermes | default | invite_code"] /\
    parts m = [("text/plain", "Hi"); ("text/html", "<p>Hi</p>")].
Proof.
  split; [ reflexivity | ].
  split; [ reflexivity | ].
  apply (send_message_contents (H := SampleHost.host_with SampleHost.smtp_env)
           SampleHost.smtp_config SampleHost.smtp_options "<p>Hi</p>" "Hi" SampleHost.start).
  reflexivity.
Defined.

Lemma sample_fs_accepts (env : string -> string) :
  fs_accepts (H := SampleHost.host_with env).
Proof. split; reflexivity. Qed.

Lemma generateEmails_writes_both_renderings_witness :
  exists w',
    generateEmails (X := Sample.externals) (H := SampleHost.host_with SampleHost.no_env)
      Sample.example_engine Sample.invite_code "invite_code" SampleHost.start =
    (Done tt,
     {| engine_world := w';
        host_log :=
          [call_os_MkdirAll "default" 484;
           call_os_WriteFile "examples/default/default.invite_code.html"
             "<html>Hi Jon Snow, Yours truly</html>" 420;
           call_os_WriteFile "examples/default/default.invite_code.txt"
             "<html>Hi Jon Snow, Yours truly</html>" 420] |}) /\
    "default" <> "examples/default".
Proof.
  eapply (generateEmails_writes_both_renderings
            (X := Sample.externals) (H := SampleHost.host_with SampleHost.no_env)
            Sample.example_engine _ _ Sample.invite_code "invite_code" SampleHost.start).
  - apply sample_fs_accepts.
  - vm_compute. reflexivity.
  - vm_compute. reflexivity.
Defined.

Lemma generateEmails_html_error_panics_witness :
  exists w',
    generateEmails (X := Sample.externals) (H := SampleHost.host_with SampleHost.no_env)
      Sample.broken_engine Sample.invite_code "invite_code" SampleHost.start =
    (Panic "template: hermes:1: function nope not defined",
     {| engine_world := w'; host_log := [] |}).
Proof.
  eexists.
  eapply (generateEmails_html_error_panics
            (X := Sample.externals) (H := SampleHost.host_with SampleHost.no_env)
            Sample.broken_engine _ Sample.invite_code "invite_code" SampleHost.start).
  vm_compute. reflexivity.
Defined.

Lemma generateEmails_text_error_leaves_html_witness :
  exists w',
    generateEmails (X := Sample.externals) (H := SampleHost.host_with SampleHost.no_env)
      (SampleHost.engine_with SampleHost.half_broken_theme) Sample.invite_code
      "invite_code" SampleHost.start =
    (Panic "template: hermes:1: function nope not defined",
     {| engine_world := w';
        host_log :=
          [call_os_MkdirAll "half" 484;
           call_os_WriteFile "examples/half/half.invite_code.html"
             "<html>Hi Jon Snow, Yours truly</html>" 420] |}).
Proof.
  eapply (generateEmails_text_error_leaves_html
            (X := Sample.externals) (H := SampleHost.host_with SampleHost.no_env)
            (SampleHost.engine_with SampleHost.half_broken_theme) _ _
            Sample.invite_code "invite_code" SampleHost.start).
  - apply sample_fs_accepts.
  - vm_compute. reflexivity.
  - vm_compute. reflexivity.
Defined.

Lemma main_without_flag_only_renders_witness :
  os_Getenv (Host := SampleHost.host_with SampleHost.no_env) [] "HERMES_SEND_EMAILS" = "" /\
  exists evs,
    host_log (snd (main (X := Sample.externals)
                     (H := SampleHost.host_with SampleHost.no_env) SampleHost.start)) =
      call_os_Getenv "HERMES_SEND_EMAILS" :: evs /\
    forallb is_fs_write evs = true.
Proof.
  split; [ reflexivity | ].
  apply (main_without_flag_only_renders
           (X := Sample.externals) (H := SampleHost.host_with SampleHost.no_env)
           SampleHost.start).
  discriminate.
Defined.

Lemma main_mails_what_it_rendered_witness :
  fst (main (X := Sample.externals) (H := SampleHost.host_with SampleHost.smtp_env)
         SampleHost.start) = Done tt /\
  exists evs,
    host_log (snd (main (X := Sample.externals)
                     (H := SampleHost.host_with SampleHost.smtp_env) SampleHost.start)) = evs /\
    written_names evs =
      ["examples/default/default.welcome.html"; "examples/default/default.welcome.txt";
       "examples/default/default.reset.html"; "examples/default/default.reset.txt";
       "examples/default/default.maintenance.html";
       "examples/default/default.maintenance.txt";
       "examples/default/default.receipt.html"; "examples/default/default.receipt.txt";
       "examples/default/default.invite_code.html";
       "examples/default/default.invite_code.txt"] /\
    read_names evs = written_names evs /\
    length (dialled evs) = 5.
Proof.
  split; [ vm_compute; reflexivity | ].
  apply (main_mails_what_it_rendered
           (X := Sample.externals) (H := SampleHost.host_with SampleHost.smtp_env)
           SampleHost.start).
  - reflexivity.
  - vm_compute. reflexivity.
Defined.
